(** * USB DFU device class core (GD32F10x usbd library, dfu_core.c)

    A shallow embedding of the request handlers and of the data-stage
    handler of [dfu_core.c], and the properties of the DFU state machine
    that are checked against it.

    The handlers mutate one [usbd_dfu_handler] reached through
    [udev->class_data[USBD_DFU_INTERFACE]], arm the control endpoint
    transactions [udev->transc_in[0]] / [udev->transc_out[0]] and call
    external collaborators (memory adapter, bus connect/disconnect, delay,
    system reset).  They are embedded as computations of a small state monad
    over a [machine]; every external call is appended to a log. *)

From Stdlib Require Import ZArith List Bool Lia.
Import ListNotations.
Local Open Scope Z_scope.

(** ** Machine integers *)

Definition u8  (x : Z) : Z := x mod 256.
Definition u32 (x : Z) : Z := x mod 4294967296.

(** A C condition [if (x & mask)]. *)
Definition bits_set (x mask : Z) : bool := negb (Z.land x mask =? 0).

(** Little-endian load [*(uint32_t * )(p + off)] from a byte array. *)
Definition load32 (bytes : list Z) (off : nat) : Z :=
  nth off bytes 0
  + Z.shiftl (nth (off + 1) bytes 0) 8
  + Z.shiftl (nth (off + 2) bytes 0) 16
  + Z.shiftl (nth (off + 3) bytes 0) 24.

(** Array store [a[i] = v]; an index outside the array is undefined in C and
    leaves the model's array as it is. *)
Fixpoint store {A : Type} (i : nat) (v : A) (a : list A) : list A :=
  match a, i with
  | [], _ => []
  | _ :: t, O => v :: t
  | h :: t, S j => h :: store j v t
  end.

(** ** Constants of the headers *)

(** Modelled from the spec: the enumerations [dfu_state] and [dfu_status] of
    dfu_core.h are not among the sources.  Spec section 4.2 lists the states
    in the order of the USB DFU 1.1 [bState] codes, which are taken here
    (2 = dfuIDLE ... 10 = dfuERROR); the status codes are the DFU 1.1
    [bStatus] codes. *)
Definition STATE_DFU_IDLE : Z := 2.
Definition STATE_DFU_DNLOAD_SYNC : Z := 3.
Definition STATE_DFU_DNBUSY : Z := 4.
Definition STATE_DFU_DNLOAD_IDLE : Z := 5.
Definition STATE_DFU_MANIFEST_SYNC : Z := 6.
Definition STATE_DFU_MANIFEST : Z := 7.
Definition STATE_DFU_MANIFEST_WAIT_RESET : Z := 8.
Definition STATE_DFU_UPLOAD_IDLE : Z := 9.
Definition STATE_DFU_ERROR : Z := 10.

Definition STATUS_OK : Z := 0.
Definition STATUS_ERR_UNKNOWN : Z := 14.
Definition STATUS_ERR_STALLEDPKT : Z := 15.

(** The nine states declared in spec section 4.2. *)
Definition dfu_states : list Z :=
  [STATE_DFU_IDLE; STATE_DFU_DNLOAD_SYNC; STATE_DFU_DNBUSY;
   STATE_DFU_DNLOAD_IDLE; STATE_DFU_MANIFEST_SYNC; STATE_DFU_MANIFEST;
   STATE_DFU_MANIFEST_WAIT_RESET; STATE_DFU_UPLOAD_IDLE; STATE_DFU_ERROR].

Definition is_dfu_state (s : Z) : bool := existsb (Z.eqb s) dfu_states.

(** Modelled from the spec: the request codes of dfu_core.h index the table
    [dfu_request_process]; spec section 4.1 names the seven requests, the
    codes are those of DFU 1.1. *)
Definition DFU_DETACH : Z := 0.
Definition DFU_DNLOAD : Z := 1.
Definition DFU_UPLOAD : Z := 2.
Definition DFU_GETSTATUS : Z := 3.
Definition DFU_CLRSTATUS : Z := 4.
Definition DFU_GETSTATE : Z := 5.
Definition DFU_ABORT : Z := 6.
Definition DFU_REQ_MAX : Z := 7.

(** Modelled from the spec: the special commands (spec section 6, UPLOAD
    block-0 response) and the two manifestation states (spec section 3). *)
Definition GET_COMMANDS : Z := 0.
Definition SET_ADDRESS_POINTER : Z := 33.
Definition ERASE : Z := 65.

Definition MANIFEST_COMPLETE : Z := 0.
Definition MANIFEST_IN_PROGRESS : Z := 1.

(** Modelled from the spec: attribute bits of the DFU functional descriptor
    and the string descriptor type, as in DFU 1.1 / USB 2.0; the source tests
    the manifestation-tolerant bit as the literal [0x04U]. *)
Definition USB_DFU_CAN_DOWNLOAD : Z := 1.
Definition USB_DFU_CAN_UPLOAD : Z := 2.
Definition USB_DFU_MANIFEST_TOLERANT : Z := 4.
Definition USB_DFU_WILL_DETACH : Z := 8.
Definition USB_DESCTYPE_STR : Z := 3.

(** Return codes of the class callbacks. *)
Inductive usbd_status := USBD_OK | USBD_FAIL.

(** The configuration constants of the headers that the source uses and whose
    values are not among the sources, and the description strings of the three
    memory adapters ([pstr_desc], [None] for a NULL pointer).  Every handler is
    defined for an arbitrary value of them. *)
Record dfu_header := {
  TRANSFER_SIZE : Z;
  APP_LOADED_ADDR : Z;
  FLASH_ERASE_TIMEOUT : Z;
  FLASH_WRITE_TIMEOUT : Z;
  DFU_DETACH_MASK : Z;
  inter_flash_pstr_desc : option (list Z);
  nor_flash_pstr_desc : option (list Z);
  nand_flash_pstr_desc : option (list Z)
}.

(** ** Data *)

(** [usbd_dfu_handler]: the first six bytes are the GETSTATUS packet
    ([xfer_buf = &bStatus], [xfer_len = 6]). *)
Record usbd_dfu_handler := {
  bStatus : Z;
  bwPollTimeout0 : Z;
  bwPollTimeout1 : Z;
  bwPollTimeout2 : Z;
  bState : Z;
  iString : Z;
  manifest_state : Z;
  data_len : Z;
  block_num : Z;
  base_addr : Z;
  buf : list Z
}.

(** [usb_req]: the fields of a setup packet that the handlers read. *)
Record usb_req := {
  bRequest : Z;
  wValue : Z;
  wLength : Z
}.

(** What a transaction buffer pointer can point to. *)
Inductive xfer_ptr :=
| PtrNull
| PtrBuf                       (* dfu->buf *)
| PtrStatus                    (* &dfu->bStatus *)
| PtrState                     (* &dfu->bState *)
| PtrMemRead (addr len : Z).   (* the region returned by dfu_mem_read *)

Record usb_transc := {
  xfer_buf : xfer_ptr;
  xfer_len : Z;
  xfer_count : Z
}.

(** The DFU functional descriptor inside [dfu_config_desc]. *)
Record usb_desc_dfu_func := {
  bmAttributes : Z;
  wDetachTimeOut : Z;
  wTransferSize : Z;
  bcdDFUVersion : Z
}.

(** Calls to the external collaborators, logged in call order. *)
Inductive call :=
| dfu_mem_init
| dfu_mem_deinit
| systick_config
| dfu_mem_erase (addr : Z)
| dfu_mem_write (data : list Z) (addr len : Z)
| dfu_mem_read (addr len : Z)
| usbd_disconnect
| usbd_connect
| delay_1ms (ms : Z)
| NVIC_SystemReset.

(** The state the handlers act on: the class data, the two control
    transactions, the three interface string descriptors (as 16-bit words),
    the global functional descriptor and the log of external calls. *)
Record machine := {
  dfu : usbd_dfu_handler;
  transc_in : usb_transc;
  transc_out : usb_transc;
  str_alt_itf0 : list Z;
  str_alt_itf1 : list Z;
  str_alt_itf2 : list Z;
  dfu_func : usb_desc_dfu_func;
  trace : list call
}.

(** *** Field updates *)

Definition set_bStatus (v : Z) (d : usbd_dfu_handler) : usbd_dfu_handler :=
  {| bStatus := v; bwPollTimeout0 := bwPollTimeout0 d;
     bwPollTimeout1 := bwPollTimeout1 d; bwPollTimeout2 := bwPollTimeout2 d;
     bState := bState d; iString := iString d;
     manifest_state := manifest_state d; data_len := data_len d;
     block_num := block_num d; base_addr := base_addr d; buf := buf d |}.

Definition set_bwPollTimeout0 (v : Z) (d : usbd_dfu_handler) : usbd_dfu_handler :=
  {| bStatus := bStatus d; bwPollTimeout0 := v;
     bwPollTimeout1 := bwPollTimeout1 d; bwPollTimeout2 := bwPollTimeout2 d;
     bState := bState d; iString := iString d;
     manifest_state := manifest_state d; data_len := data_len d;
     block_num := block_num d; base_addr := base_addr d; buf := buf d |}.

Definition set_bwPollTimeout1 (v : Z) (d : usbd_dfu_handler) : usbd_dfu_handler :=
  {| bStatus := bStatus d; bwPollTimeout0 := bwPollTimeout0 d;
     bwPollTimeout1 := v; bwPollTimeout2 := bwPollTimeout2 d;
     bState := bState d; iString := iString d;
     manifest_state := manifest_state d; data_len := data_len d;
     block_num := block_num d; base_addr := base_addr d; buf := buf d |}.

Definition set_bwPollTimeout2 (v : Z) (d : usbd_dfu_handler) : usbd_dfu_handler :=
  {| bStatus := bStatus d; bwPollTimeout0 := bwPollTimeout0 d;
     bwPollTimeout1 := bwPollTimeout1 d; bwPollTimeout2 := v;
     bState := bState d; iString := iString d;
     manifest_state := manifest_state d; data_len := data_len d;
     block_num := block_num d; base_addr := base_addr d; buf := buf d |}.

Definition set_bState (v : Z) (d : usbd_dfu_handler) : usbd_dfu_handler :=
  {| bStatus := bStatus d; bwPollTimeout0 := bwPollTimeout0 d;
     bwPollTimeout1 := bwPollTimeout1 d; bwPollTimeout2 := bwPollTimeout2 d;
     bState := v; iString := iString d;
     manifest_state := manifest_state d; data_len := data_len d;
     block_num := block_num d; base_addr := base_addr d; buf := buf d |}.

Definition set_iString (v : Z) (d : usbd_dfu_handler) : usbd_dfu_handler :=
  {| bStatus := bStatus d; bwPollTimeout0 := bwPollTimeout0 d;
     bwPollTimeout1 := bwPollTimeout1 d; bwPollTimeout2 := bwPollTimeout2 d;
     bState := bState d; iString := v;
     manifest_state := manifest_state d; data_len := data_len d;
     block_num := block_num d; base_addr := base_addr d; buf := buf d |}.

Definition set_manifest_state (v : Z) (d : usbd_dfu_handler) : usbd_dfu_handler :=
  {| bStatus := bStatus d; bwPollTimeout0 := bwPollTimeout0 d;
     bwPollTimeout1 := bwPollTimeout1 d; bwPollTimeout2 := bwPollTimeout2 d;
     bState := bState d; iString := iString d;
     manifest_state := v; data_len := data_len d;
     block_num := block_num d; base_addr := base_addr d; buf := buf d |}.

Definition set_data_len (v : Z) (d : usbd_dfu_handler) : usbd_dfu_handler :=
  {| bStatus := bStatus d; bwPollTimeout0 := bwPollTimeout0 d;
     bwPollTimeout1 := bwPollTimeout1 d; bwPollTimeout2 := bwPollTimeout2 d;
     bState := bState d; iString := iString d;
     manifest_state := manifest_state d; data_len := v;
     block_num := block_num d; base_addr := base_addr d; buf := buf d |}.

Definition set_block_num (v : Z) (d : usbd_dfu_handler) : usbd_dfu_handler :=
  {| bStatus := bStatus d; bwPollTimeout0 := bwPollTimeout0 d;
     bwPollTimeout1 := bwPollTimeout1 d; bwPollTimeout2 := bwPollTimeout2 d;
     bState := bState d; iString := iString d;
     manifest_state := manifest_state d; data_len := data_len d;
     block_num := v; base_addr := base_addr d; buf := buf d |}.

Definition set_base_addr (v : Z) (d : usbd_dfu_handler) : usbd_dfu_handler :=
  {| bStatus := bStatus d; bwPollTimeout0 := bwPollTimeout0 d;
     bwPollTimeout1 := bwPollTimeout1 d; bwPollTimeout2 := bwPollTimeout2 d;
     bState := bState d; iString := iString d;
     manifest_state := manifest_state d; data_len := data_len d;
     block_num := block_num d; base_addr := v; buf := buf d |}.

Definition set_buf (v : list Z) (d : usbd_dfu_handler) : usbd_dfu_handler :=
  {| bStatus := bStatus d; bwPollTimeout0 := bwPollTimeout0 d;
     bwPollTimeout1 := bwPollTimeout1 d; bwPollTimeout2 := bwPollTimeout2 d;
     bState := bState d; iString := iString d;
     manifest_state := manifest_state d; data_len := data_len d;
     block_num := block_num d; base_addr := base_addr d; buf := v |}.

Definition set_xfer_buf (p : xfer_ptr) (t : usb_transc) : usb_transc :=
  {| xfer_buf := p; xfer_len := xfer_len t; xfer_count := xfer_count t |}.
Definition set_xfer_len (n : Z) (t : usb_transc) : usb_transc :=
  {| xfer_buf := xfer_buf t; xfer_len := n; xfer_count := xfer_count t |}.
Definition set_xfer_count (n : Z) (t : usb_transc) : usb_transc :=
  {| xfer_buf := xfer_buf t; xfer_len := xfer_len t; xfer_count := n |}.

Definition with_dfu (f : usbd_dfu_handler -> usbd_dfu_handler) (m : machine) : machine :=
  {| dfu := f (dfu m); transc_in := transc_in m; transc_out := transc_out m;
     str_alt_itf0 := str_alt_itf0 m; str_alt_itf1 := str_alt_itf1 m;
     str_alt_itf2 := str_alt_itf2 m; dfu_func := dfu_func m; trace := trace m |}.

Definition with_transc_in (f : usb_transc -> usb_transc) (m : machine) : machine :=
  {| dfu := dfu m; transc_in := f (transc_in m); transc_out := transc_out m;
     str_alt_itf0 := str_alt_itf0 m; str_alt_itf1 := str_alt_itf1 m;
     str_alt_itf2 := str_alt_itf2 m; dfu_func := dfu_func m; trace := trace m |}.

Definition with_transc_out (f : usb_transc -> usb_transc) (m : machine) : machine :=
  {| dfu := dfu m; transc_in := transc_in m; transc_out := f (transc_out m);
     str_alt_itf0 := str_alt_itf0 m; str_alt_itf1 := str_alt_itf1 m;
     str_alt_itf2 := str_alt_itf2 m; dfu_func := dfu_func m; trace := trace m |}.

Definition with_strings (s0 s1 s2 : list Z) (m : machine) : machine :=
  {| dfu := dfu m; transc_in := transc_in m; transc_out := transc_out m;
     str_alt_itf0 := s0; str_alt_itf1 := s1; str_alt_itf2 := s2;
     dfu_func := dfu_func m; trace := trace m |}.

Definition log (c : call) (m : machine) : machine :=
  {| dfu := dfu m; transc_in := transc_in m; transc_out := transc_out m;
     str_alt_itf0 := str_alt_itf0 m; str_alt_itf1 := str_alt_itf1 m;
     str_alt_itf2 := str_alt_itf2 m; dfu_func := dfu_func m;
     trace := trace m ++ [c] |}.

(** ** The monad of the handlers *)

(** A handler either returns to its caller or ends in the system reset. *)
Inductive result (A : Type) :=
| Ret (a : A) (m : machine)
| Halt (m : machine).
Arguments Ret {A} a m.
Arguments Halt {A} m.

Definition M (A : Type) : Type := machine -> result A.

Definition ret {A} (a : A) : M A := fun m => Ret a m.

Definition bind {A B} (c : M A) (f : A -> M B) : M B :=
  fun m => match c m with
           | Ret a m' => f a m'
           | Halt m' => Halt m'
           end.

Notation "x <- c ;; k" := (bind c (fun x => k))
  (at level 61, c at next level, right associativity).
Notation "c ;; k" := (bind c (fun _ => k))
  (at level 61, right associativity).

Definition get_dfu : M usbd_dfu_handler := fun m => Ret (dfu m) m.
Definition get_func : M usb_desc_dfu_func := fun m => Ret (dfu_func m) m.
Definition upd (f : usbd_dfu_handler -> usbd_dfu_handler) : M unit :=
  fun m => Ret tt (with_dfu f m).
Definition upd_in (f : usb_transc -> usb_transc) : M unit :=
  fun m => Ret tt (with_transc_in f m).
Definition upd_out (f : usb_transc -> usb_transc) : M unit :=
  fun m => Ret tt (with_transc_out f m).
Definition extern (c : call) : M unit := fun m => Ret tt (log c m).

(** Modelled from the spec: [NVIC_SystemReset] is a platform primitive that
    is not among the sources; spec section 6 gives it as a call that never
    returns to the caller. *)
Definition system_reset : M unit := fun m => Halt (log NVIC_SystemReset m).

(** The machine a computation ends in, whichever way it ends. *)
Definition final {A} (r : result A) : machine :=
  match r with Ret _ m => m | Halt m => m end.

(** ** The functions of dfu_core.c *)

Section DfuCore.

Variable k : dfu_header.

(** [strlen]: the characters before the terminating NUL. *)
Fixpoint strlen (s : list Z) : Z :=
  match s with
  | [] => 0
  | c :: t => if c =? 0 then 0 else 1 + strlen t
  end.

(** The loop of [string_to_unicode]: [while ( *str != 0) pbuf[index++] = *str++;]
    with its [uint8_t] index. *)
Fixpoint copy_chars (s : list Z) (index : Z) (pbuf : list Z) : list Z :=
  match s with
  | [] => pbuf
  | c :: t =>
      if c =? 0 then pbuf
      else copy_chars t (u8 (index + 1)) (store (Z.to_nat index) c pbuf)
  end.

Definition string_to_unicode (str : option (list Z)) (pbuf : list Z) : list Z :=
  match str with
  | None => pbuf
  | Some s =>
      let head := Z.lor (Z.land (u32 (strlen s * 2 + 2)) 255)
                        (Z.land (Z.shiftl USB_DESCTYPE_STR 8) 65280) in
      copy_chars s 1 (store 0 head pbuf)
  end.

(** [memset (&dfu_handler, 0, sizeof (usbd_dfu_handler))]. *)
Definition zero_handler : usbd_dfu_handler :=
  {| bStatus := 0; bwPollTimeout0 := 0; bwPollTimeout1 := 0; bwPollTimeout2 := 0;
     bState := 0; iString := 0; manifest_state := 0; data_len := 0;
     block_num := 0; base_addr := 0;
     buf := repeat 0 (Z.to_nat (TRANSFER_SIZE k)) |}.

Definition dfu_init (config_index : Z) : M usbd_status :=
  extern dfu_mem_init ;;
  extern systick_config ;;
  upd (fun _ => zero_handler) ;;
  upd (set_base_addr (APP_LOADED_ADDR k)) ;;
  upd (set_manifest_state MANIFEST_COMPLETE) ;;
  upd (set_bState STATE_DFU_IDLE) ;;
  upd (set_bStatus STATUS_OK) ;;
  (fun m => Ret tt
     (with_strings
        (string_to_unicode (inter_flash_pstr_desc k) (str_alt_itf0 m))
        (string_to_unicode (nor_flash_pstr_desc k) (str_alt_itf1 m))
        (string_to_unicode (nand_flash_pstr_desc k) (str_alt_itf2 m)) m)) ;;
  ret USBD_OK.

Definition dfu_deinit (config_index : Z) : M usbd_status :=
  upd (fun _ => zero_handler) ;;
  upd (set_bState STATE_DFU_IDLE) ;;
  upd (set_bStatus STATUS_OK) ;;
  extern dfu_mem_deinit ;;
  ret USBD_OK.

Definition dfu_mode_leave : M unit :=
  upd (set_manifest_state MANIFEST_COMPLETE) ;;
  f <- get_func ;;
  if bits_set (bmAttributes f) 4 then
    upd (set_bState STATE_DFU_MANIFEST_SYNC)
  else
    upd (set_bState STATE_DFU_MANIFEST_WAIT_RESET) ;;
    extern dfu_mem_deinit ;;
    system_reset.

Definition dfu_getstatus_complete : M usbd_status :=
  d <- get_dfu ;;
  if STATE_DFU_DNBUSY =? bState d then
    (if 0 =? block_num d then
       if 1 =? data_len d then
         (if GET_COMMANDS =? nth 0 (buf d) 0 then ret tt else ret tt)
       else if 5 =? data_len d then
         if SET_ADDRESS_POINTER =? nth 0 (buf d) 0 then
           upd (set_base_addr (load32 (buf d) 1))
         else if ERASE =? nth 0 (buf d) 0 then
           upd (set_base_addr (load32 (buf d) 1)) ;;
           d' <- get_dfu ;;
           extern (dfu_mem_erase (base_addr d'))
         else ret tt
       else ret tt
     else if 1 <? block_num d then
       let addr := u32 (u32 (u32 (block_num d - 2) * TRANSFER_SIZE k) + base_addr d) in
       extern (dfu_mem_write (firstn (Z.to_nat (data_len d)) (buf d)) addr (data_len d)) ;;
       upd (set_block_num 0)
     else ret tt) ;;
    upd (set_data_len 0) ;;
    upd (set_bState STATE_DFU_DNLOAD_SYNC) ;;
    ret USBD_OK
  else if STATE_DFU_MANIFEST =? bState d then
    dfu_mode_leave ;;
    ret USBD_OK
  else ret USBD_OK.

Definition dfu_ctlx_in : M usbd_status :=
  dfu_getstatus_complete ;;
  ret USBD_OK.

(** The [switch] of [dfu_detach] and [dfu_abort]. *)
Definition abortable (s : Z) : bool :=
  (s =? STATE_DFU_IDLE) || (s =? STATE_DFU_DNLOAD_SYNC)
  || (s =? STATE_DFU_DNLOAD_IDLE) || (s =? STATE_DFU_MANIFEST_SYNC)
  || (s =? STATE_DFU_UPLOAD_IDLE).

Definition dfu_detach (req : usb_req) : M unit :=
  d <- get_dfu ;;
  (if abortable (bState d) then
     upd (set_bStatus STATUS_OK) ;;
     upd (set_bState STATE_DFU_IDLE) ;;
     upd (set_iString 0) ;;
     upd (set_block_num 0) ;;
     upd (set_data_len 0)
   else ret tt) ;;
  f <- get_func ;;
  if bits_set (wDetachTimeOut f) (DFU_DETACH_MASK k) then
    extern usbd_disconnect ;;
    extern usbd_connect
  else
    extern (delay_1ms 4).

Definition dfu_dnload (req : usb_req) : M unit :=
  d <- get_dfu ;;
  if (bState d =? STATE_DFU_IDLE) || (bState d =? STATE_DFU_DNLOAD_IDLE) then
    if 0 <? wLength req then
      upd (set_block_num (wValue req)) ;;
      upd (set_data_len (wLength req)) ;;
      upd (set_bState STATE_DFU_DNLOAD_SYNC) ;;
      d' <- get_dfu ;;
      upd_out (set_xfer_len (data_len d')) ;;
      upd_out (set_xfer_buf PtrBuf) ;;
      upd_out (set_xfer_count 0)
    else
      upd (set_manifest_state MANIFEST_IN_PROGRESS) ;;
      upd (set_bState STATE_DFU_MANIFEST_SYNC)
  else ret tt.

Definition dfu_upload (req : usb_req) : M unit :=
  if wLength req <=? 0 then
    upd (set_bState STATE_DFU_IDLE)
  else
    d <- get_dfu ;;
    if (bState d =? STATE_DFU_IDLE) || (bState d =? STATE_DFU_UPLOAD_IDLE) then
      upd (set_block_num (wValue req)) ;;
      upd (set_data_len (wLength req)) ;;
      d <- get_dfu ;;
      if 0 =? block_num d then
        upd (set_bState (if 3 <? data_len d then STATE_DFU_IDLE
                         else STATE_DFU_UPLOAD_IDLE)) ;;
        upd (fun d => set_buf (store 0 GET_COMMANDS (buf d)) d) ;;
        upd (fun d => set_buf (store 1 SET_ADDRESS_POINTER (buf d)) d) ;;
        upd (fun d => set_buf (store 2 ERASE (buf d)) d) ;;
        upd_in (set_xfer_buf PtrBuf) ;;
        upd_in (set_xfer_len 3)
      else if 1 <? block_num d then
        upd (set_bState STATE_DFU_UPLOAD_IDLE) ;;
        let addr := u32 (u32 (u32 (block_num d - 2) * TRANSFER_SIZE k) + base_addr d) in
        extern (dfu_mem_read addr (data_len d)) ;;
        upd_in (set_xfer_buf (PtrMemRead addr (data_len d))) ;;
        upd_in (set_xfer_len (data_len d))
      else
        upd (set_bState STATUS_ERR_STALLEDPKT)
    else
      upd (set_data_len 0) ;;
      upd (set_block_num 0).

(** Modelled from the spec: the macro [SET_POLLING_TIMEOUT] is defined in a
    header that is not among the sources; by spec sections 3 and 4.5 the poll
    timeout is a 24-bit value stored least-significant byte first in the three
    bytes after [bStatus]. *)
Definition SET_POLLING_TIMEOUT (x : Z) : M unit :=
  upd (set_bwPollTimeout0 (Z.land x 255)) ;;
  upd (set_bwPollTimeout1 (Z.land (Z.shiftr x 8) 255)) ;;
  upd (set_bwPollTimeout2 (Z.land (Z.shiftr x 16) 255)).

Definition dfu_getstatus (req : usb_req) : M unit :=
  d <- get_dfu ;;
  (if bState d =? STATE_DFU_DNLOAD_SYNC then
     if negb (0 =? data_len d) then
       upd (set_bState STATE_DFU_DNBUSY) ;;
       if 0 =? block_num d then
         if ERASE =? nth 0 (buf d) 0 then
           SET_POLLING_TIMEOUT (FLASH_ERASE_TIMEOUT k)
         else
           SET_POLLING_TIMEOUT (FLASH_WRITE_TIMEOUT k)
       else ret tt
     else
       upd (set_bState STATE_DFU_DNLOAD_IDLE)
   else if bState d =? STATE_DFU_MANIFEST_SYNC then
     f <- get_func ;;
     if MANIFEST_IN_PROGRESS =? manifest_state d then
       upd (set_bState STATE_DFU_MANIFEST) ;;
       upd (set_bwPollTimeout0 1)
     else if (MANIFEST_COMPLETE =? manifest_state d) && bits_set (bmAttributes f) 4 then
       upd (set_bState STATE_DFU_IDLE) ;;
       upd (set_bwPollTimeout0 0)
     else ret tt
   else ret tt) ;;
  upd_in (set_xfer_buf PtrStatus) ;;
  upd_in (set_xfer_len 6).

Definition dfu_clrstatus (req : usb_req) : M unit :=
  d <- get_dfu ;;
  (if STATE_DFU_ERROR =? bState d then
     upd (set_bStatus STATUS_OK) ;;
     upd (set_bState STATE_DFU_IDLE)
   else
     upd (set_bStatus STATUS_ERR_UNKNOWN) ;;
     upd (set_bState STATE_DFU_ERROR)) ;;
  upd (set_iString 0).

Definition dfu_getstate (req : usb_req) : M unit :=
  upd_in (set_xfer_buf PtrState) ;;
  upd_in (set_xfer_len 1).

Definition dfu_abort (req : usb_req) : M unit :=
  d <- get_dfu ;;
  if abortable (bState d) then
    upd (set_bStatus STATUS_OK) ;;
    upd (set_bState STATE_DFU_IDLE) ;;
    upd (set_iString 0) ;;
    upd (set_block_num 0) ;;
    upd (set_data_len 0)
  else ret tt.

(** The table [dfu_request_process], indexed by the request code. *)
Definition dfu_request_process : list (usb_req -> M unit) :=
  [dfu_detach; dfu_dnload; dfu_upload; dfu_getstatus;
   dfu_clrstatus; dfu_getstate; dfu_abort].

Definition dfu_req_handler (req : usb_req) : M usbd_status :=
  if bRequest req <? DFU_REQ_MAX then
    nth (Z.to_nat (bRequest req)) dfu_request_process (fun _ => ret tt) req ;;
    ret USBD_OK
  else ret USBD_FAIL.

(** *** The transfer engine around the handlers *)

(** Modelled from the spec: the control transfer engine is not among the
    sources.  By spec section 2 it performs the data stage of a DNLOAD into
    the armed staging buffer: at most [xfer_len] bytes of the host's payload
    replace the head of [dfu->buf] when [transc_out[0]] points to it. *)
Definition ep0_data_out (payload : list Z) : M unit :=
  fun m =>
    match xfer_buf (transc_out m) with
    | PtrBuf =>
        let room := Nat.min (Z.to_nat (xfer_len (transc_out m))) (length (buf (dfu m))) in
        let data := firstn room payload in
        Ret tt (with_transc_out (set_xfer_count (Z.of_nat (length data)))
                  (with_dfu (set_buf (data ++ skipn (length data) (buf (dfu m)))) m))
    | _ => Ret tt m
    end.

(** The bytes an IN transaction sends; the GETSTATUS packet is the first six
    bytes of the handler. *)
Definition status_packet (d : usbd_dfu_handler) : list Z :=
  [bStatus d; bwPollTimeout0 d; bwPollTimeout1 d; bwPollTimeout2 d;
   bState d; iString d].

(** The events the engine delivers to the class: a class request, the OUT
    data stage of a download, the completion of a control IN stage. *)
Inductive input :=
| Setup (req : usb_req)
| DataOut (payload : list Z)
| DataIn.

Definition step (i : input) : M unit :=
  match i with
  | Setup req => dfu_req_handler req ;; ret tt
  | DataOut payload => ep0_data_out payload
  | DataIn => dfu_ctlx_in ;; ret tt
  end.

Fixpoint run (inputs : list input) : M unit :=
  match inputs with
  | [] => ret tt
  | i :: rest => step i ;; run rest
  end.

(** The states reachable through the request and data-stage handlers after
    the interface has been activated. *)
Definition reachable (m : machine) : Prop :=
  exists m0 inputs, (dfu_init 0 ;; run inputs) m0 = Ret tt m.

End DfuCore.

(** ** A configuration to run the model on *)

(** The functional descriptor as [dfu_config_desc] initialises it. *)
Definition dfu_config_desc_dfu_func (k : dfu_header) : usb_desc_dfu_func :=
  {| bmAttributes :=
       Z.lor (Z.lor USB_DFU_CAN_DOWNLOAD USB_DFU_CAN_UPLOAD) USB_DFU_WILL_DETACH;
     wDetachTimeOut := 0x00FF;
     wTransferSize := TRANSFER_SIZE k;
     bcdDFUVersion := 0x0110 |}.

(** One value of the header constants (2 KiB transfers, application loaded
    at 0x08004000), used where a property is evaluated on a concrete run; the
    general statements hold for every header. *)
Definition sample_header : dfu_header :=
  {| TRANSFER_SIZE := 2048;
     APP_LOADED_ADDR := 0x08004000;
     FLASH_ERASE_TIMEOUT := 100;
     FLASH_WRITE_TIMEOUT := 50;
     DFU_DETACH_MASK := 0x10;
     inter_flash_pstr_desc := Some [64; 73; 110; 116];
     nor_flash_pstr_desc := Some [64; 78; 79; 82];
     nand_flash_pstr_desc := None |}.

Definition idle_transc : usb_transc :=
  {| xfer_buf := PtrNull; xfer_len := 0; xfer_count := 0 |}.

(** The machine before the interface is activated: static storage is zero,
    the interface strings hold their descriptor header only. *)
Definition power_on (k : dfu_header) : machine :=
  {| dfu := zero_handler k;
     transc_in := idle_transc;
     transc_out := idle_transc;
     str_alt_itf0 := 0x0306 :: repeat 0 63;
     str_alt_itf1 := 0x0306 :: repeat 0 63;
     str_alt_itf2 := 0x0306 :: repeat 0 63;
     dfu_func := dfu_config_desc_dfu_func k;
     trace := [] |}.

(** The same machine with another attribute byte in the functional
    descriptor. *)
Definition with_bmAttributes (a : Z) (m : machine) : machine :=
  {| dfu := dfu m; transc_in := transc_in m; transc_out := transc_out m;
     str_alt_itf0 := str_alt_itf0 m; str_alt_itf1 := str_alt_itf1 m;
     str_alt_itf2 := str_alt_itf2 m;
     dfu_func := {| bmAttributes := a;
                    wDetachTimeOut := wDetachTimeOut (dfu_func m);
                    wTransferSize := wTransferSize (dfu_func m);
                    bcdDFUVersion := bcdDFUVersion (dfu_func m) |};
     trace := trace m |}.

(** The machine after activation followed by the given engine events. *)
Definition after (k : dfu_header) (inputs : list input) : result unit :=
  (dfu_init k 0 ;; run k inputs) (power_on k).

Definition request (code value length : Z) : input :=
  Setup {| bRequest := code; wValue := value; wLength := length |}.

(** ** Notions the properties are stated with *)

(** The address of data block [b] over base address [a], as the
    specification gives it: [(b - 2) * transfer_size + base_addr], a 32-bit
    address. *)
Definition block_address (k : dfu_header) (b a : Z) : Z :=
  u32 ((b - 2) * TRANSFER_SIZE k + a).

(** The five states in which ABORT and DETACH reset the context. *)
Definition abort_states : list Z :=
  [STATE_DFU_IDLE; STATE_DFU_DNLOAD_SYNC; STATE_DFU_DNLOAD_IDLE;
   STATE_DFU_MANIFEST_SYNC; STATE_DFU_UPLOAD_IDLE].

(** The manifestation-tolerant test of the source, [bmAttributes & 0x04U]. *)
Definition manifestation_tolerant (f : usb_desc_dfu_func) : bool :=
  bits_set (bmAttributes f) USB_DFU_MANIFEST_TOLERANT.

(** The detach test of the source, [wDetachTimeOut & DFU_DETACH_MASK]. *)
Definition will_detach (k : dfu_header) (f : usb_desc_dfu_func) : bool :=
  bits_set (wDetachTimeOut f) (DFU_DETACH_MASK k).

(** The poll timeout of the status packet as one 24-bit number. *)
Definition poll_timeout (d : usbd_dfu_handler) : Z :=
  bwPollTimeout0 d + 256 * bwPollTimeout1 d + 65536 * bwPollTimeout2 d.

(** The first byte of the staging buffer is one of the three special
    commands: the weakest reading of "the buffer holds a command". *)
Definition buf_holds_command (d : usbd_dfu_handler) : bool :=
  let c := nth 0 (buf d) 0 in
  (c =? GET_COMMANDS) || (c =? SET_ADDRESS_POINTER) || (c =? ERASE).

Definition is_mem_write (c : call) : bool :=
  match c with dfu_mem_write _ _ _ => true | _ => false end.

(** *** Concrete runs *)

Definition firmware_block : list Z := [222; 173; 190; 239].

(** Activated and idle. *)
Definition m_idle : machine := final (after sample_header []).

(** A download of data block 3 staged and acknowledged: state DNBUSY. *)
Definition m_dnbusy : machine :=
  final (after sample_header
           [request DFU_DNLOAD 3 256; DataOut firmware_block;
            request DFU_GETSTATUS 0 6]).

(** A download of data block 2 staged: state DNLOAD_SYNC. *)
Definition m_block2_staged : machine :=
  final (after sample_header
           [request DFU_DNLOAD 2 256; DataOut firmware_block]).

(** A download of data block 2 carried out: back in DNLOAD_SYNC. *)
Definition m_block2_written : machine :=
  final (after sample_header
           [request DFU_DNLOAD 2 256; DataOut firmware_block;
            request DFU_GETSTATUS 0 6; DataIn]).

(** An ERASE command staged and acknowledged: state DNBUSY, block 0. *)
Definition m_erase_busy : machine :=
  final (after sample_header
           [request DFU_DNLOAD 0 5; DataOut [ERASE; 0; 64; 0; 8];
            request DFU_GETSTATUS 0 6]).

(** An ERASE command staged: state DNLOAD_SYNC, block 0. *)
Definition m_erase_staged : machine :=
  final (after sample_header
           [request DFU_DNLOAD 0 5; DataOut [ERASE; 0; 64; 0; 8]]).

(** CLRSTATUS outside ERROR: state ERROR. *)
Definition m_error : machine :=
  final (after sample_header [request DFU_CLRSTATUS 0 0]).

(** Zero-length download acknowledged: state MANIFEST. *)
Definition m_manifest : machine :=
  final (after sample_header
           [request DFU_DNLOAD 0 0; request DFU_GETSTATUS 0 6]).

(** MANIFEST_SYNC with the manifestation complete. *)
Definition m_manifest_done : machine :=
  with_dfu (fun d => set_manifest_state MANIFEST_COMPLETE
                       (set_bState STATE_DFU_MANIFEST_SYNC d)) m_idle.

Definition upload_req (block length : Z) : usb_req :=
  {| bRequest := DFU_UPLOAD; wValue := block; wLength := length |}.
Definition getstatus_req : usb_req :=
  {| bRequest := DFU_GETSTATUS; wValue := 0; wLength := 6 |}.
Definition clrstatus_req : usb_req :=
  {| bRequest := DFU_CLRSTATUS; wValue := 0; wLength := 0 |}.
Definition detach_req : usb_req :=
  {| bRequest := DFU_DETACH; wValue := 1000; wLength := 0 |}.
Definition abort_req : usb_req :=
  {| bRequest := DFU_ABORT; wValue := 0; wLength := 0 |}.

(** ** Notions for the further properties *)

(** The external calls a class request may make: the adapter read of an
    upload, the bus cycle or the delay of a detach. *)
Definition request_call (c : call) : bool :=
  match c with
  | dfu_mem_read _ _ | usbd_disconnect | usbd_connect | delay_1ms _ => true
  | _ => false
  end.

(** The four bytes of a 32-bit address, least significant first, as a host
    places them after the command byte. *)
Definition le_bytes32 (a : Z) : list Z :=
  [Z.land a 255; Z.land (Z.shiftr a 8) 255;
   Z.land (Z.shiftr a 16) 255; Z.land (Z.shiftr a 24) 255].

(** The characters of a C string: those before the first NUL. *)
Fixpoint c_string (s : list Z) : list Z :=
  match s with
  | [] => []
  | c :: t => if c =? 0 then [] else c :: c_string t
  end.

(** The status values and the state values the handlers store. *)
Definition status_stored (s : Z) : bool :=
  (s =? STATUS_OK) || (s =? STATUS_ERR_UNKNOWN).

Definition state_stored (s : Z) : bool :=
  is_dfu_state s || (s =? STATUS_ERR_STALLEDPKT).

Definition manifest_stored (s : Z) : bool :=
  (s =? MANIFEST_COMPLETE) || (s =? MANIFEST_IN_PROGRESS).

(** The context with another staging buffer. *)
Definition dnload_req (block length : Z) : usb_req :=
  {| bRequest := DFU_DNLOAD; wValue := block; wLength := length |}.
Definition getstate_req : usb_req :=
  {| bRequest := DFU_GETSTATE; wValue := 0; wLength := 1 |}.

(** A SET_ADDRESS_POINTER command for 0x08008000 staged and acknowledged:
    state DNBUSY, block 0. *)
Definition m_setaddr_busy : machine :=
  final (after sample_header
           [request DFU_DNLOAD 0 5;
            DataOut (SET_ADDRESS_POINTER :: le_bytes32 0x08008000);
            request DFU_GETSTATUS 0 6]).

(** A download of block 1 staged and acknowledged: state DNBUSY. *)
Definition m_block1_busy : machine :=
  final (after sample_header
           [request DFU_DNLOAD 1 16; DataOut firmware_block;
            request DFU_GETSTATUS 0 6]).

(** What an entry of the request table does and does not do: it returns,
    calls nothing but the adapter read and the bus primitives, keeps the base
    address, the size of the staging buffer and the functional descriptor,
    and stores only OK or "unknown error" as status, only a declared state or
    the stalled-packet constant as state. *)
Definition request_frame (h : usb_req -> M unit) : Prop :=
  forall req m,
    exists m' calls,
      h req m = Ret tt m' /\
      trace m' = trace m ++ calls /\
      forallb request_call calls = true /\
      base_addr (dfu m') = base_addr (dfu m) /\
      length (buf (dfu m')) = length (buf (dfu m)) /\
      dfu_func m' = dfu_func m /\
      (bStatus (dfu m') = bStatus (dfu m) \/
       status_stored (bStatus (dfu m')) = true) /\
      (bState (dfu m') = bState (dfu m) \/
       state_stored (bState (dfu m')) = true) /\
      (manifest_state (dfu m') = manifest_state (dfu m) \/
       manifest_stored (manifest_state (dfu m')) = true).

(** The values the context fields can hold: status OK or "unknown error",
    a declared state or the stalled-packet constant, a manifestation
    state. *)
Definition context_inv (d : usbd_dfu_handler) : bool :=
  status_stored (bStatus d) && state_stored (bState d)
  && manifest_stored (manifest_state d).

(** An interface string descriptor of 64 words holding its header only. *)
Definition empty_string_desc : list Z := 0x0306 :: repeat 0 63.

(** A description string that [string_to_unicode] can write into a
    descriptor without wrapping its index or leaving the descriptor: NULL,
    or at most 255 characters and fewer characters than descriptor words. *)
Definition string_fits (str : option (list Z)) (pbuf : list Z) : Prop :=
  match str with
  | None => True
  | Some s =>
      (length (c_string s) <= 255)%nat /\
      (length (c_string s) < length pbuf)%nat
  end.

(** ** Execution of the monad *)

Ltac exec :=
  unfold bind, ret, upd, upd_in, upd_out, get_dfu, get_func, extern,
    system_reset;
  cbn [dfu transc_in transc_out dfu_func trace with_dfu with_transc_in
       with_transc_out log final
       bStatus bwPollTimeout0 bwPollTimeout1 bwPollTimeout2 bState iString
       manifest_state data_len block_num base_addr buf
       set_bStatus set_bwPollTimeout0 set_bwPollTimeout1 set_bwPollTimeout2
       set_bState set_iString set_manifest_state set_data_len set_block_num
       set_base_addr set_buf
       xfer_buf xfer_len xfer_count set_xfer_buf set_xfer_len set_xfer_count].

Lemma u32_block_address (k : dfu_header) (b a : Z) :
  u32 (u32 (u32 (b - 2) * TRANSFER_SIZE k) + a) = block_address k b a.
Proof.
  unfold block_address, u32.
  rewrite Zmult_mod_idemp_l, Zplus_mod_idemp_l.
  reflexivity.
Qed.

(** Without wrap-around the 32-bit block address is the plain formula. *)
Lemma block_address_exact (k : dfu_header) (b a : Z) :
  2 <= b -> 0 <= TRANSFER_SIZE k -> 0 <= a ->
  (b - 2) * TRANSFER_SIZE k + a < 4294967296 ->
  block_address k b a = (b - 2) * TRANSFER_SIZE k + a.
Proof.
  intros Hb Ht Ha Hlt. unfold block_address, u32.
  apply Z.mod_small. split; [nia | exact Hlt].
Qed.

Lemma abortable_abort_states (s : Z) :
  In s abort_states -> abortable s = true.
Proof.
  unfold abort_states. cbn [In].
  intros [<- | [<- | [<- | [<- | [<- | []]]]]]; reflexivity.
Qed.

Lemma abortable_false (s : Z) :
  ~ In s abort_states -> abortable s = false.
Proof.
  intros Hn. unfold abortable.
  repeat rewrite orb_false_iff. unfold abort_states in Hn. cbn [In] in Hn.
  repeat split; apply Z.eqb_neq; intros ->; apply Hn; tauto.
Qed.

(** C1. For every block number [b >= 2] and every base address [a], the
    data-stage decoder of a download (state DNBUSY, staged block [b]) calls
    the adapter write, and an UPLOAD request for block [b] (state IDLE or
    UPLOAD_IDLE) calls the adapter read, at the same address
    [(b - 2) * TRANSFER_SIZE + a] in 32-bit arithmetic. *)
Theorem block_address_download_upload
    (k : dfu_header) (m_dn m_up : machine) (req : usb_req) (b a : Z) :
  2 <= b ->
  bState (dfu m_dn) = STATE_DFU_DNBUSY ->
  block_num (dfu m_dn) = b ->
  base_addr (dfu m_dn) = a ->
  bState (dfu m_up) = STATE_DFU_IDLE \/ bState (dfu m_up) = STATE_DFU_UPLOAD_IDLE ->
  base_addr (dfu m_up) = a ->
  bRequest req = DFU_UPLOAD -> wValue req = b -> 0 < wLength req ->
  (exists m',
     dfu_ctlx_in k m_dn = Ret USBD_OK m' /\
     trace m' = trace m_dn ++
       [dfu_mem_write (firstn (Z.to_nat (data_len (dfu m_dn))) (buf (dfu m_dn)))
          (block_address k b a) (data_len (dfu m_dn))]) /\
  (exists m',
     dfu_req_handler k req m_up = Ret USBD_OK m' /\
     trace m' = trace m_up ++ [dfu_mem_read (block_address k b a) (wLength req)] /\
     xfer_buf (transc_in m') = PtrMemRead (block_address k b a) (wLength req) /\
     xfer_len (transc_in m') = wLength req).
Proof.
  intros Hb Hdn Hbn Hba Hup Hua Hreq Hval Hlen. split.
  - unfold dfu_ctlx_in, dfu_getstatus_complete. exec.
    rewrite Hdn, Hbn, Hba, Z.eqb_refl.
    replace (0 =? b) with false by (symmetry; apply Z.eqb_neq; lia).
    replace (1 <? b) with true by (symmetry; apply Z.ltb_lt; lia).
    exec. rewrite u32_block_address.
    eexists. split; reflexivity.
  - destruct req as [code value len]. cbn [bRequest wValue wLength] in *.
    subst code value.
    unfold dfu_req_handler. cbn [bRequest].
    change (DFU_UPLOAD <? DFU_REQ_MAX) with true. cbv iota.
    change (nth (Z.to_nat DFU_UPLOAD) (dfu_request_process k) (fun _ => ret tt))
      with (dfu_upload k).
    unfold dfu_upload. cbn [wLength wValue]. exec.
    replace (len <=? 0) with false by (symmetry; apply Z.leb_gt; lia).
    exec.
    replace ((bState (dfu m_up) =? STATE_DFU_IDLE)
             || (bState (dfu m_up) =? STATE_DFU_UPLOAD_IDLE)) with true
      by (destruct Hup as [-> | ->]; reflexivity).
    exec.
    replace (0 =? b) with false by (symmetry; apply Z.eqb_neq; lia).
    replace (1 <? b) with true by (symmetry; apply Z.ltb_lt; lia).
    exec. rewrite Hua, u32_block_address.
    eexists. repeat split; reflexivity.
Qed.

Lemma block_address_download_upload_witness :
  (exists m',
     dfu_ctlx_in sample_header m_dnbusy = Ret USBD_OK m' /\
     trace m' = trace m_dnbusy ++
       [dfu_mem_write
          (firstn (Z.to_nat (data_len (dfu m_dnbusy))) (buf (dfu m_dnbusy)))
          (block_address sample_header 3 0x08004000)
          (data_len (dfu m_dnbusy))]) /\
  (exists m',
     dfu_req_handler sample_header (upload_req 3 64) m_idle = Ret USBD_OK m' /\
     trace m' = trace m_idle ++
       [dfu_mem_read (block_address sample_header 3 0x08004000)
          (wLength (upload_req 3 64))] /\
     xfer_buf (transc_in m') =
       PtrMemRead (block_address sample_header 3 0x08004000)
         (wLength (upload_req 3 64)) /\
     xfer_len (transc_in m') = wLength (upload_req 3 64)).
Proof.
  apply (block_address_download_upload sample_header m_dnbusy m_idle
           (upload_req 3 64) 3 0x08004000).
  - lia.
  - reflexivity.
  - reflexivity.
  - reflexivity.
  - left. reflexivity.
  - reflexivity.
  - reflexivity.
  - reflexivity.
  - reflexivity.
Defined.


(** ** Dispatch *)

Lemma dispatch (k : dfu_header) (req : usb_req) (code : Z) :
  bRequest req = code -> 0 <= code < DFU_REQ_MAX ->
  dfu_req_handler k req =
    (nth (Z.to_nat code) (dfu_request_process k) (fun _ => ret tt) req ;;
     ret USBD_OK).
Proof.
  intros H Hc. unfold dfu_req_handler. rewrite H.
  replace (code <? DFU_REQ_MAX) with true by (symmetry; apply Z.ltb_lt; lia).
  reflexivity.
Qed.

Lemma dispatch_unknown (k : dfu_header) (req : usb_req) (m : machine) :
  DFU_REQ_MAX <= bRequest req ->
  dfu_req_handler k req m = Ret USBD_FAIL m.
Proof.
  intros H. unfold dfu_req_handler.
  replace (bRequest req <? DFU_REQ_MAX) with false
    by (symmetry; apply Z.ltb_ge; exact H).
  reflexivity.
Qed.

(** ** ABORT and DETACH *)

(** C5. An ABORT or DETACH request received in IDLE, DNLOAD_SYNC,
    DNLOAD_IDLE, MANIFEST_SYNC or UPLOAD_IDLE leaves the context with status
    OK, state IDLE, string index 0, block number 0 and data length 0. *)
Theorem abort_detach_reset_context
    (k : dfu_header) (m : machine) (req : usb_req) :
  bRequest req = DFU_ABORT \/ bRequest req = DFU_DETACH ->
  In (bState (dfu m)) abort_states ->
  exists m',
    dfu_req_handler k req m = Ret USBD_OK m' /\
    bStatus (dfu m') = STATUS_OK /\
    bState (dfu m') = STATE_DFU_IDLE /\
    iString (dfu m') = 0 /\
    block_num (dfu m') = 0 /\
    data_len (dfu m') = 0.
Proof.
  intros [Hreq | Hreq] Hst; apply abortable_abort_states in Hst.
  - rewrite (dispatch k req DFU_ABORT Hreq) by (unfold DFU_ABORT, DFU_REQ_MAX; lia).
    change (nth (Z.to_nat DFU_ABORT) (dfu_request_process k) (fun _ => ret tt))
      with dfu_abort.
    unfold dfu_abort. exec. rewrite Hst. exec.
    eexists. repeat split; reflexivity.
  - rewrite (dispatch k req DFU_DETACH Hreq) by (unfold DFU_DETACH, DFU_REQ_MAX; lia).
    change (nth (Z.to_nat DFU_DETACH) (dfu_request_process k) (fun _ => ret tt))
      with (dfu_detach k).
    unfold dfu_detach. exec. rewrite Hst. exec.
    destruct (bits_set _ _); exec; eexists; repeat split; reflexivity.
Qed.

Lemma abort_detach_reset_context_witness :
  exists m',
    dfu_req_handler sample_header abort_req m_block2_staged = Ret USBD_OK m' /\
    bStatus (dfu m') = STATUS_OK /\
    bState (dfu m') = STATE_DFU_IDLE /\
    iString (dfu m') = 0 /\
    block_num (dfu m') = 0 /\
    data_len (dfu m') = 0.
Proof.
  apply (abort_detach_reset_context sample_header m_block2_staged abort_req).
  - left. reflexivity.
  - right. left. reflexivity.
Defined.

(** C9. A DETACH request performs the bus-level side effect whatever the
    state is: a disconnect followed by a connect when the detach test of the
    functional descriptor succeeds, a 4 ms delay otherwise; outside the five
    states of C5 the context is left as it was. *)
Theorem detach_side_effect_any_state
    (k : dfu_header) (m : machine) (req : usb_req) :
  bRequest req = DFU_DETACH ->
  exists m',
    dfu_req_handler k req m = Ret USBD_OK m' /\
    trace m' = trace m ++
      (if will_detach k (dfu_func m) then [usbd_disconnect; usbd_connect]
       else [delay_1ms 4]) /\
    (~ In (bState (dfu m)) abort_states -> dfu m' = dfu m).
Proof.
  intros Hreq.
  rewrite (dispatch k req DFU_DETACH Hreq) by (unfold DFU_DETACH, DFU_REQ_MAX; lia).
  change (nth (Z.to_nat DFU_DETACH) (dfu_request_process k) (fun _ => ret tt))
    with (dfu_detach k).
  unfold dfu_detach, will_detach. exec.
  destruct (abortable (bState (dfu m))) eqn:Hab; exec;
    destruct (bits_set _ _); exec; eexists;
    (split; [reflexivity | split; [exec; try rewrite <- app_assoc; reflexivity | ]]).
  all: intros Hn; apply abortable_false in Hn; try congruence.
  all: destruct m as [d ? ? ? ? ? ? ?]; reflexivity.
Qed.

Lemma detach_side_effect_any_state_witness :
  exists m',
    dfu_req_handler sample_header detach_req m_error = Ret USBD_OK m' /\
    trace m' = trace m_error ++
      (if will_detach sample_header (dfu_func m_error)
       then [usbd_disconnect; usbd_connect]
       else [delay_1ms 4]) /\
    (~ In (bState (dfu m_error)) abort_states -> dfu m' = dfu m_error).
Proof.
  apply (detach_side_effect_any_state sample_header m_error detach_req).
  reflexivity.
Defined.

(** ** CLRSTATUS *)

Lemma clrstatus_step (k : dfu_header) (m : machine) (req : usb_req) :
  bRequest req = DFU_CLRSTATUS ->
  exists m',
    step k (Setup req) m = Ret tt m' /\
    bState (dfu m') =
      (if STATE_DFU_ERROR =? bState (dfu m) then STATE_DFU_IDLE
       else STATE_DFU_ERROR) /\
    bStatus (dfu m') =
      (if STATE_DFU_ERROR =? bState (dfu m) then STATUS_OK
       else STATUS_ERR_UNKNOWN) /\
    iString (dfu m') = 0.
Proof.
  intros Hreq. unfold step.
  rewrite (dispatch k req DFU_CLRSTATUS Hreq)
    by (unfold DFU_CLRSTATUS, DFU_REQ_MAX; lia).
  change (nth (Z.to_nat DFU_CLRSTATUS) (dfu_request_process k) (fun _ => ret tt))
    with dfu_clrstatus.
  unfold dfu_clrstatus. exec.
  destruct (STATE_DFU_ERROR =? bState (dfu m)); exec;
    eexists; repeat split; reflexivity.
Qed.

(** From ERROR, consecutive CLRSTATUS requests toggle the context: the
    parity of their number decides between ERROR and IDLE. *)
Lemma clrstatus_run (k : dfu_header) (reqs : list usb_req) :
  Forall (fun r => bRequest r = DFU_CLRSTATUS) reqs ->
  forall m,
    bState (dfu m) = STATE_DFU_ERROR ->
    exists m',
      run k (map Setup reqs) m = Ret tt m' /\
      (if Nat.even (length reqs)
       then bState (dfu m') = STATE_DFU_ERROR /\
            (reqs <> [] -> bStatus (dfu m') = STATUS_ERR_UNKNOWN)
       else bState (dfu m') = STATE_DFU_IDLE /\ bStatus (dfu m') = STATUS_OK).
Proof.
  intros Hall.
  assert (Hboth : forall m,
    (bState (dfu m) = STATE_DFU_ERROR ->
     exists m',
       run k (map Setup reqs) m = Ret tt m' /\
       (if Nat.even (length reqs)
        then bState (dfu m') = STATE_DFU_ERROR /\
             (reqs <> [] -> bStatus (dfu m') = STATUS_ERR_UNKNOWN)
        else bState (dfu m') = STATE_DFU_IDLE /\ bStatus (dfu m') = STATUS_OK)) /\
    (bState (dfu m) = STATE_DFU_IDLE -> bStatus (dfu m) = STATUS_OK ->
     exists m',
       run k (map Setup reqs) m = Ret tt m' /\
       (if Nat.even (length reqs)
        then bState (dfu m') = STATE_DFU_IDLE /\ bStatus (dfu m') = STATUS_OK
        else bState (dfu m') = STATE_DFU_ERROR /\
             bStatus (dfu m') = STATUS_ERR_UNKNOWN))).
  { induction Hall as [| r rs Hr Hrs IH]; intros m.
    - split.
      + intros He. exists m. split; [reflexivity |].
        cbn. split; [exact He | congruence].
      + intros Hi Hok. exists m. split; [reflexivity |].
        cbn. split; assumption.
    - destruct (clrstatus_step k m r Hr) as (m1 & Hstep & Hs & Hu & _).
      assert (Hcons : forall m', run k (map Setup rs) m1 = Ret tt m' ->
                run k (map Setup (r :: rs)) m = Ret tt m').
      { intros m' Hrun. cbn [map run]. unfold bind. rewrite Hstep. exact Hrun. }
      cbn [length]. rewrite Nat.even_succ, <- Nat.negb_even.
      destruct (IH m1) as [IHerr IHidle].
      split.
      + intros He. rewrite He in Hs, Hu. cbn in Hs, Hu.
        destruct (IHidle Hs Hu) as (m' & Hrun & Hres).
        exists m'. split; [exact (Hcons m' Hrun) |].
        destruct (Nat.even (length rs)); cbn [negb]; [exact Hres |].
        destruct Hres as [H1 H2]. split; [exact H1 | intros _; exact H2].
      + intros Hi _. rewrite Hi in Hs, Hu. cbn in Hs, Hu.
        destruct (IHerr Hs) as (m' & Hrun & Hres).
        exists m'. split; [exact (Hcons m' Hrun) |].
        destruct (Nat.even (length rs)) eqn:Hev; cbn [negb]; [| exact Hres].
        destruct Hres as [H1 H2]. split; [exact H1 |].
        destruct rs as [| r' rs'].
        * cbn in Hrun. injection Hrun as <-. exact Hu.
        * apply H2. discriminate. }
  intros m. apply Hboth.
Qed.

(** C3 (as amended).  The first CLRSTATUS received in ERROR leaves state
    IDLE and status OK, but CLRSTATUS is not idempotent: any number [n >= 1]
    of consecutive CLRSTATUS requests from ERROR ends in IDLE with status OK
    when [n] is odd and in ERROR with status "unknown error" when [n] is
    even. *)
Theorem clrstatus_from_error_alternates
    (k : dfu_header) (m : machine) (reqs : list usb_req) :
  bState (dfu m) = STATE_DFU_ERROR ->
  Forall (fun r => bRequest r = DFU_CLRSTATUS) reqs ->
  reqs <> [] ->
  exists m',
    run k (map Setup reqs) m = Ret tt m' /\
    (if Nat.odd (length reqs)
     then bState (dfu m') = STATE_DFU_IDLE /\ bStatus (dfu m') = STATUS_OK
     else bState (dfu m') = STATE_DFU_ERROR /\
          bStatus (dfu m') = STATUS_ERR_UNKNOWN).
Proof.
  intros Herr Hall Hne.
  destruct (clrstatus_run k reqs Hall m Herr) as (m' & Hrun & Hres).
  exists m'. split; [exact Hrun |].
  rewrite <- Nat.negb_even.
  destruct (Nat.even (length reqs)); cbn [negb].
  - destruct Hres as [H1 H2]. split; [exact H1 | exact (H2 Hne)].
  - exact Hres.
Qed.

Lemma clrstatus_from_error_alternates_witness :
  exists m',
    run sample_header (map Setup [clrstatus_req; clrstatus_req; clrstatus_req])
      m_error = Ret tt m' /\
    (if Nat.odd (length [clrstatus_req; clrstatus_req; clrstatus_req])
     then bState (dfu m') = STATE_DFU_IDLE /\ bStatus (dfu m') = STATUS_OK
     else bState (dfu m') = STATE_DFU_ERROR /\
          bStatus (dfu m') = STATUS_ERR_UNKNOWN).
Proof.
  apply (clrstatus_from_error_alternates sample_header m_error
           [clrstatus_req; clrstatus_req; clrstatus_req]).
  - reflexivity.
  - repeat constructor.
  - discriminate.
Defined.

(** C3 as stated fails: from ERROR the first CLRSTATUS gives IDLE with
    status OK, and the second one leaves ERROR with status "unknown error",
    not IDLE with status OK. *)
Lemma clrstatus_not_idempotent :
  bState (dfu m_error) = STATE_DFU_ERROR /\
  exists m1 m2,
    step sample_header (Setup clrstatus_req) m_error = Ret tt m1 /\
    step sample_header (Setup clrstatus_req) m1 = Ret tt m2 /\
    bState (dfu m1) = STATE_DFU_IDLE /\ bStatus (dfu m1) = STATUS_OK /\
    bState (dfu m2) = STATE_DFU_ERROR /\
    bStatus (dfu m2) = STATUS_ERR_UNKNOWN /\
    bState (dfu m2) <> STATE_DFU_IDLE /\ bStatus (dfu m2) <> STATUS_OK.
Proof.
  split; [reflexivity |].
  eexists. eexists.
  split; [vm_compute; reflexivity |].
  split; [vm_compute; reflexivity |].
  repeat split; try reflexivity; vm_compute; discriminate.
Qed.

(** ** Manifestation *)

(** C6. A data-stage completion in state MANIFEST has exactly two outcomes:
    with the manifestation-tolerant bit set the handler returns in
    MANIFEST_SYNC with the manifestation complete and no external call; with
    the bit clear the memory adapter is deinitialized, the system reset is
    issued and the handler does not return. *)
Theorem manifest_completion_two_outcomes (k : dfu_header) (m : machine) :
  bState (dfu m) = STATE_DFU_MANIFEST ->
  (manifestation_tolerant (dfu_func m) = true /\
   exists m',
     dfu_ctlx_in k m = Ret USBD_OK m' /\
     bState (dfu m') = STATE_DFU_MANIFEST_SYNC /\
     manifest_state (dfu m') = MANIFEST_COMPLETE /\
     trace m' = trace m)
  \/
  (manifestation_tolerant (dfu_func m) = false /\
   exists m',
     dfu_ctlx_in k m = Halt m' /\
     trace m' = trace m ++ [dfu_mem_deinit; NVIC_SystemReset] /\
     manifest_state (dfu m') = MANIFEST_COMPLETE /\
     bState (dfu m') = STATE_DFU_MANIFEST_WAIT_RESET).
Proof.
  intros Hst.
  unfold dfu_ctlx_in, dfu_getstatus_complete, dfu_mode_leave,
    manifestation_tolerant. exec.
  rewrite Hst.
  change (STATE_DFU_DNBUSY =? STATE_DFU_MANIFEST) with false.
  rewrite Z.eqb_refl. exec.
  change USB_DFU_MANIFEST_TOLERANT with 4.
  destruct (bits_set (bmAttributes (dfu_func m)) 4); exec.
  - left. split; [reflexivity |].
    eexists. repeat split; reflexivity.
  - right. split; [reflexivity |].
    eexists. split; [reflexivity |]. exec.
    rewrite <- app_assoc. repeat split; reflexivity.
Qed.

Lemma manifest_completion_two_outcomes_witness :
  (manifestation_tolerant (dfu_func m_manifest) = true /\
   exists m',
     dfu_ctlx_in sample_header m_manifest = Ret USBD_OK m' /\
     bState (dfu m') = STATE_DFU_MANIFEST_SYNC /\
     manifest_state (dfu m') = MANIFEST_COMPLETE /\
     trace m' = trace m_manifest)
  \/
  (manifestation_tolerant (dfu_func m_manifest) = false /\
   exists m',
     dfu_ctlx_in sample_header m_manifest = Halt m' /\
     trace m' = trace m_manifest ++ [dfu_mem_deinit; NVIC_SystemReset] /\
     manifest_state (dfu m') = MANIFEST_COMPLETE /\
     bState (dfu m') = STATE_DFU_MANIFEST_WAIT_RESET).
Proof.
  apply (manifest_completion_two_outcomes sample_header m_manifest).
  reflexivity.
Defined.

(** Both outcomes occur: the descriptor of the source is not manifestation
    tolerant and resets; with the tolerant bit added the handler returns. *)
Example manifest_completion_resets :
  exists m', dfu_ctlx_in sample_header m_manifest = Halt m'.
Proof. eexists. vm_compute. reflexivity. Qed.

Example manifest_completion_tolerant_returns :
  exists m',
    dfu_ctlx_in sample_header (with_bmAttributes 0x0F m_manifest)
      = Ret USBD_OK m' /\
    bState (dfu m') = STATE_DFU_MANIFEST_SYNC.
Proof. eexists. split; vm_compute; reflexivity. Qed.

(** C10. A GETSTATUS request received in MANIFEST_SYNC with the
    manifestation complete and the manifestation-tolerant bit clear changes
    no field of the context, so neither the state nor the poll timeout; it
    makes no external call and only arms the six-byte status packet. *)
Theorem getstatus_manifest_sync_not_tolerant
    (k : dfu_header) (m : machine) (req : usb_req) :
  bRequest req = DFU_GETSTATUS ->
  bState (dfu m) = STATE_DFU_MANIFEST_SYNC ->
  manifest_state (dfu m) = MANIFEST_COMPLETE ->
  manifestation_tolerant (dfu_func m) = false ->
  exists m',
    dfu_req_handler k req m = Ret USBD_OK m' /\
    dfu m' = dfu m /\
    bState (dfu m') = STATE_DFU_MANIFEST_SYNC /\
    poll_timeout (dfu m') = poll_timeout (dfu m) /\
    xfer_buf (transc_in m') = PtrStatus /\
    xfer_len (transc_in m') = 6 /\
    status_packet (dfu m') = status_packet (dfu m) /\
    trace m' = trace m.
Proof.
  intros Hreq Hst Hman Htol.
  rewrite (dispatch k req DFU_GETSTATUS Hreq)
    by (unfold DFU_GETSTATUS, DFU_REQ_MAX; lia).
  change (nth (Z.to_nat DFU_GETSTATUS) (dfu_request_process k) (fun _ => ret tt))
    with (dfu_getstatus k).
  unfold manifestation_tolerant in Htol.
  change USB_DFU_MANIFEST_TOLERANT with 4 in Htol.
  unfold dfu_getstatus. exec.
  rewrite Hst, Hman.
  change (STATE_DFU_MANIFEST_SYNC =? STATE_DFU_DNLOAD_SYNC) with false.
  change (MANIFEST_IN_PROGRESS =? MANIFEST_COMPLETE) with false.
  rewrite !Z.eqb_refl. exec. rewrite Htol. cbn [andb]. exec.
  eexists. split; [reflexivity |]. exec.
  repeat split; try reflexivity. exact Hst.
Qed.

Lemma getstatus_manifest_sync_not_tolerant_witness :
  exists m',
    dfu_req_handler sample_header getstatus_req m_manifest_done = Ret USBD_OK m' /\
    dfu m' = dfu m_manifest_done /\
    bState (dfu m') = STATE_DFU_MANIFEST_SYNC /\
    poll_timeout (dfu m') = poll_timeout (dfu m_manifest_done) /\
    xfer_buf (transc_in m') = PtrStatus /\
    xfer_len (transc_in m') = 6 /\
    status_packet (dfu m') = status_packet (dfu m_manifest_done) /\
    trace m' = trace m_manifest_done.
Proof.
  apply (getstatus_manifest_sync_not_tolerant sample_header m_manifest_done
           getstatus_req).
  - reflexivity.
  - reflexivity.
  - reflexivity.
  - reflexivity.
Defined.

(** ** Activation *)

(** C8 (as amended).  Activation zeroes the context and then sets four
    fields: afterwards the state is IDLE, the status is OK, the
    manifestation state is COMPLETE, the base address is the application
    load address [APP_LOADED_ADDR], and the poll timeout, the string index,
    the data length, the block number and every byte of the buffer are
    zero. *)
Theorem dfu_init_context (k : dfu_header) (m : machine) (config_index : Z) :
  exists m',
    dfu_init k config_index m = Ret USBD_OK m' /\
    dfu m' =
      {| bStatus := STATUS_OK;
         bwPollTimeout0 := 0; bwPollTimeout1 := 0; bwPollTimeout2 := 0;
         bState := STATE_DFU_IDLE;
         iString := 0;
         manifest_state := MANIFEST_COMPLETE;
         data_len := 0;
         block_num := 0;
         base_addr := APP_LOADED_ADDR k;
         buf := repeat 0 (Z.to_nat (TRANSFER_SIZE k)) |} /\
    trace m' = trace m ++ [dfu_mem_init; systick_config].
Proof.
  unfold dfu_init, with_strings. exec.
  eexists. split; [reflexivity |]. exec.
  split; [reflexivity |].
  rewrite <- app_assoc. reflexivity.
Qed.

(** C8 as stated fails: after activation the base address is the
    application load address, not zero. *)
Lemma dfu_init_base_addr_not_zero :
  exists m',
    dfu_init sample_header 0 (power_on sample_header) = Ret USBD_OK m' /\
    bState (dfu m') = STATE_DFU_IDLE /\
    base_addr (dfu m') = 0x08004000 /\
    base_addr (dfu m') <> 0.
Proof.
  eexists. split; [vm_compute; reflexivity |].
  repeat split; try reflexivity. vm_compute. discriminate.
Qed.

(** ** UPLOAD of block 1 *)

(** What the handler does with an UPLOAD of block 1: the status constant
    [STATUS_ERR_STALLEDPKT] is stored in the state field, the status field
    keeps its value, the request's block number and length are recorded and
    no transfer is armed. *)
Lemma upload_block1 (k : dfu_header) (m : machine) (req : usb_req) :
  bRequest req = DFU_UPLOAD -> wValue req = 1 -> 0 < wLength req ->
  bState (dfu m) = STATE_DFU_IDLE \/ bState (dfu m) = STATE_DFU_UPLOAD_IDLE ->
  exists m',
    dfu_req_handler k req m = Ret USBD_OK m' /\
    bState (dfu m') = STATUS_ERR_STALLEDPKT /\
    bStatus (dfu m') = bStatus (dfu m) /\
    block_num (dfu m') = 1 /\
    data_len (dfu m') = wLength req /\
    buf (dfu m') = buf (dfu m) /\
    transc_in m' = transc_in m /\
    trace m' = trace m.
Proof.
  intros Hreq Hval Hlen Hst.
  rewrite (dispatch k req DFU_UPLOAD Hreq)
    by (unfold DFU_UPLOAD, DFU_REQ_MAX; lia).
  change (nth (Z.to_nat DFU_UPLOAD) (dfu_request_process k) (fun _ => ret tt))
    with (dfu_upload k).
  unfold dfu_upload. rewrite Hval.
  replace (wLength req <=? 0) with false by (symmetry; apply Z.leb_gt; lia).
  exec.
  replace ((bState (dfu m) =? STATE_DFU_IDLE)
           || (bState (dfu m) =? STATE_DFU_UPLOAD_IDLE)) with true
    by (destruct Hst as [-> | ->]; reflexivity).
  exec.
  change (0 =? 1) with false. change (1 <? 1) with false. exec.
  eexists. repeat split; reflexivity.
Qed.

(** C2 (the code at the failing input).  In IDLE with status OK, an UPLOAD
    of block 1 with length 8 arms no transfer and reads nothing, but the
    status stays OK: the stalled-packet constant lands in the state field,
    where it is none of the declared states, and the status packet reads
    status 0, state 15. *)
Theorem upload_block1_status_stays_ok :
  bState (dfu m_idle) = STATE_DFU_IDLE /\
  exists m',
    dfu_req_handler sample_header (upload_req 1 8) m_idle = Ret USBD_OK m' /\
    bStatus (dfu m') = STATUS_OK /\
    bStatus (dfu m') <> STATUS_ERR_STALLEDPKT /\
    bState (dfu m') = STATUS_ERR_STALLEDPKT /\
    is_dfu_state (bState (dfu m')) = false /\
    status_packet (dfu m') = [0; 0; 0; 0; 15; 0] /\
    transc_in m' = transc_in m_idle /\
    trace m' = trace m_idle.
Proof.
  split; [reflexivity |].
  eexists. split; [vm_compute; reflexivity |].
  repeat split; try (vm_compute; reflexivity).
  vm_compute. discriminate.
Qed.

(** ** GETSTATUS in DNLOAD_SYNC *)

(** With a block-0 transfer staged, GETSTATUS moves to DNBUSY and arms the
    erase timeout for an ERASE command and the write timeout otherwise. *)
Lemma getstatus_block0_arms_timeout
    (k : dfu_header) (m : machine) (req : usb_req) :
  bRequest req = DFU_GETSTATUS ->
  bState (dfu m) = STATE_DFU_DNLOAD_SYNC ->
  data_len (dfu m) <> 0 ->
  block_num (dfu m) = 0 ->
  exists m',
    dfu_req_handler k req m = Ret USBD_OK m' /\
    bState (dfu m') = STATE_DFU_DNBUSY /\
    let t := if ERASE =? nth 0 (buf (dfu m)) 0
             then FLASH_ERASE_TIMEOUT k else FLASH_WRITE_TIMEOUT k in
    bwPollTimeout0 (dfu m') = Z.land t 255 /\
    bwPollTimeout1 (dfu m') = Z.land (Z.shiftr t 8) 255 /\
    bwPollTimeout2 (dfu m') = Z.land (Z.shiftr t 16) 255.
Proof.
  intros Hreq Hst Hlen Hbn.
  rewrite (dispatch k req DFU_GETSTATUS Hreq)
    by (unfold DFU_GETSTATUS, DFU_REQ_MAX; lia).
  change (nth (Z.to_nat DFU_GETSTATUS) (dfu_request_process k) (fun _ => ret tt))
    with (dfu_getstatus k).
  unfold dfu_getstatus, SET_POLLING_TIMEOUT. exec.
  rewrite Hst, Hbn, !Z.eqb_refl.
  replace (0 =? data_len (dfu m)) with false
    by (symmetry; apply Z.eqb_neq; congruence).
  cbn [negb]. exec.
  destruct (ERASE =? nth 0 (buf (dfu m)) 0); exec;
    eexists; repeat split; reflexivity.
Qed.

(** With a transfer of any other block staged, GETSTATUS moves to DNBUSY
    and leaves the three poll timeout bytes as they were. *)
Lemma getstatus_data_block_keeps_timeout
    (k : dfu_header) (m : machine) (req : usb_req) :
  bRequest req = DFU_GETSTATUS ->
  bState (dfu m) = STATE_DFU_DNLOAD_SYNC ->
  data_len (dfu m) <> 0 ->
  block_num (dfu m) <> 0 ->
  exists m',
    dfu_req_handler k req m = Ret USBD_OK m' /\
    bState (dfu m') = STATE_DFU_DNBUSY /\
    bwPollTimeout0 (dfu m') = bwPollTimeout0 (dfu m) /\
    bwPollTimeout1 (dfu m') = bwPollTimeout1 (dfu m) /\
    bwPollTimeout2 (dfu m') = bwPollTimeout2 (dfu m).
Proof.
  intros Hreq Hst Hlen Hbn.
  rewrite (dispatch k req DFU_GETSTATUS Hreq)
    by (unfold DFU_GETSTATUS, DFU_REQ_MAX; lia).
  change (nth (Z.to_nat DFU_GETSTATUS) (dfu_request_process k) (fun _ => ret tt))
    with (dfu_getstatus k).
  unfold dfu_getstatus. exec.
  rewrite Hst, Z.eqb_refl.
  replace (0 =? data_len (dfu m)) with false
    by (symmetry; apply Z.eqb_neq; congruence).
  replace (0 =? block_num (dfu m)) with false
    by (symmetry; apply Z.eqb_neq; congruence).
  cbn [negb]. exec.
  eexists. repeat split; reflexivity.
Qed.

(** C4 (as amended).  A GETSTATUS request received in DNLOAD_SYNC with a
    non-zero data length moves to DNBUSY.  The poll timeout is armed only
    when the staged transfer is block 0: the erase timeout when its first
    byte is ERASE, the write timeout otherwise.  For any other block number
    the three poll timeout bytes keep their value. *)
Theorem getstatus_dnload_sync_poll_timeout
    (k : dfu_header) (m : machine) (req : usb_req) :
  bRequest req = DFU_GETSTATUS ->
  bState (dfu m) = STATE_DFU_DNLOAD_SYNC ->
  data_len (dfu m) <> 0 ->
  exists m',
    dfu_req_handler k req m = Ret USBD_OK m' /\
    bState (dfu m') = STATE_DFU_DNBUSY /\
    if 0 =? block_num (dfu m) then
      (let t := (if ERASE =? nth 0 (buf (dfu m)) 0
                 then FLASH_ERASE_TIMEOUT k else FLASH_WRITE_TIMEOUT k) in
       bwPollTimeout0 (dfu m') = Z.land t 255 /\
       bwPollTimeout1 (dfu m') = Z.land (Z.shiftr t 8) 255 /\
       bwPollTimeout2 (dfu m') = Z.land (Z.shiftr t 16) 255)
    else
      bwPollTimeout0 (dfu m') = bwPollTimeout0 (dfu m) /\
      bwPollTimeout1 (dfu m') = bwPollTimeout1 (dfu m) /\
      bwPollTimeout2 (dfu m') = bwPollTimeout2 (dfu m).
Proof.
  intros Hreq Hst Hlen.
  destruct (0 =? block_num (dfu m)) eqn:Hbn.
  - apply Z.eqb_eq in Hbn. symmetry in Hbn.
    exact (getstatus_block0_arms_timeout k m req Hreq Hst Hlen Hbn).
  - apply Z.eqb_neq in Hbn.
    apply (getstatus_data_block_keeps_timeout k m req Hreq Hst Hlen).
    congruence.
Qed.

Lemma getstatus_dnload_sync_poll_timeout_witness :
  exists m',
    dfu_req_handler sample_header getstatus_req m_erase_staged
      = Ret USBD_OK m' /\
    bState (dfu m') = STATE_DFU_DNBUSY /\
    if 0 =? block_num (dfu m_erase_staged) then
      (let t := (if ERASE =? nth 0 (buf (dfu m_erase_staged)) 0
                 then FLASH_ERASE_TIMEOUT sample_header
                 else FLASH_WRITE_TIMEOUT sample_header) in
       bwPollTimeout0 (dfu m') = Z.land t 255 /\
       bwPollTimeout1 (dfu m') = Z.land (Z.shiftr t 8) 255 /\
       bwPollTimeout2 (dfu m') = Z.land (Z.shiftr t 16) 255)
    else
      bwPollTimeout0 (dfu m') = bwPollTimeout0 (dfu m_erase_staged) /\
      bwPollTimeout1 (dfu m') = bwPollTimeout1 (dfu m_erase_staged) /\
      bwPollTimeout2 (dfu m') = bwPollTimeout2 (dfu m_erase_staged).
Proof.
  apply (getstatus_dnload_sync_poll_timeout sample_header m_erase_staged
           getstatus_req).
  - reflexivity.
  - reflexivity.
  - vm_compute. discriminate.
Defined.

(** C4 as stated fails: after activation, a DNLOAD of data block 2 with 256
    bytes is staged (state DNLOAD_SYNC, data length 256); GETSTATUS moves to
    DNBUSY but arms no poll timeout: it is still 0, not the write timeout. *)
Lemma getstatus_data_block_no_write_timeout :
  bState (dfu m_block2_staged) = STATE_DFU_DNLOAD_SYNC /\
  data_len (dfu m_block2_staged) = 256 /\
  block_num (dfu m_block2_staged) = 2 /\
  exists m',
    dfu_req_handler sample_header getstatus_req m_block2_staged
      = Ret USBD_OK m' /\
    bState (dfu m') = STATE_DFU_DNBUSY /\
    poll_timeout (dfu m') = 0 /\
    poll_timeout (dfu m') <> FLASH_WRITE_TIMEOUT sample_header /\
    status_packet (dfu m') = [0; 0; 0; 0; 4; 0].
Proof.
  repeat split; try reflexivity.
  eexists. split; [vm_compute; reflexivity |].
  repeat split; try (vm_compute; reflexivity).
  vm_compute. discriminate.
Qed.

(** ** Block number 0 and the staging buffer *)

(** C7 (as amended).  When the data stage completes in DNBUSY with block
    number 0, the decoder treats the staging buffer as a command only: the
    buffer is never handed to the adapter write; a 5-byte ERASE sets the base
    address and erases there, a 5-byte SET_ADDRESS_POINTER sets the base
    address, anything else is ignored; the buffer itself is left as it is. *)
Theorem block0_buffer_decoded_as_command (k : dfu_header) (m : machine) :
  bState (dfu m) = STATE_DFU_DNBUSY ->
  block_num (dfu m) = 0 ->
  exists m' calls,
    dfu_ctlx_in k m = Ret USBD_OK m' /\
    trace m' = trace m ++ calls /\
    existsb is_mem_write calls = false /\
    buf (dfu m') = buf (dfu m) /\
    bState (dfu m') = STATE_DFU_DNLOAD_SYNC /\
    let c := nth 0 (buf (dfu m)) 0 in
    let a := load32 (buf (dfu m)) 1 in
    if (5 =? data_len (dfu m)) && (c =? ERASE) then
      base_addr (dfu m') = a /\ calls = [dfu_mem_erase a]
    else if (5 =? data_len (dfu m)) && (c =? SET_ADDRESS_POINTER) then
      base_addr (dfu m') = a /\ calls = []
    else
      base_addr (dfu m') = base_addr (dfu m) /\ calls = [].
Proof.
  intros Hst Hbn.
  unfold dfu_ctlx_in, dfu_getstatus_complete. exec.
  rewrite Hst, Hbn, !Z.eqb_refl.
  destruct (1 =? data_len (dfu m)) eqn:H1.
  - apply Z.eqb_eq in H1. rewrite <- H1. change (5 =? 1) with false.
    cbn [andb].
    destruct (GET_COMMANDS =? nth 0 (buf (dfu m)) 0); exec;
      exists (with_dfu (set_bState STATE_DFU_DNLOAD_SYNC)
                (with_dfu (set_data_len 0) m)), [];
      rewrite app_nil_r; repeat split; reflexivity.
  - destruct (5 =? data_len (dfu m)) eqn:H5; cbn [andb].
    + rewrite (Z.eqb_sym (nth 0 (buf (dfu m)) 0) ERASE).
      rewrite (Z.eqb_sym (nth 0 (buf (dfu m)) 0) SET_ADDRESS_POINTER).
      destruct (SET_ADDRESS_POINTER =? nth 0 (buf (dfu m)) 0) eqn:Hsa.
      * apply Z.eqb_eq in Hsa. rewrite <- Hsa.
        change (ERASE =? SET_ADDRESS_POINTER) with false. exec.
        eexists. exists []. rewrite app_nil_r. repeat split; reflexivity.
      * destruct (ERASE =? nth 0 (buf (dfu m)) 0); exec.
        -- eexists. eexists. repeat split; reflexivity.
        -- eexists. exists []. rewrite app_nil_r. repeat split; reflexivity.
    + exec. eexists. exists []. rewrite app_nil_r. repeat split; reflexivity.
Qed.

Lemma block0_buffer_decoded_as_command_witness :
  exists m' calls,
    dfu_ctlx_in sample_header m_erase_busy = Ret USBD_OK m' /\
    trace m' = trace m_erase_busy ++ calls /\
    existsb is_mem_write calls = false /\
    buf (dfu m') = buf (dfu m_erase_busy) /\
    bState (dfu m') = STATE_DFU_DNLOAD_SYNC /\
    let c := nth 0 (buf (dfu m_erase_busy)) 0 in
    let a := load32 (buf (dfu m_erase_busy)) 1 in
    if (5 =? data_len (dfu m_erase_busy)) && (c =? ERASE) then
      base_addr (dfu m') = a /\ calls = [dfu_mem_erase a]
    else if (5 =? data_len (dfu m_erase_busy)) && (c =? SET_ADDRESS_POINTER) then
      base_addr (dfu m') = a /\ calls = []
    else
      base_addr (dfu m') = base_addr (dfu m_erase_busy) /\ calls = [].
Proof.
  apply (block0_buffer_decoded_as_command sample_header m_erase_busy).
  - reflexivity.
  - reflexivity.
Defined.

(** C7 as stated fails: after a data block has been written the block
    number is reset to 0 while the staging buffer still holds the firmware
    bytes of that block, and its first byte is none of the three commands. *)
Lemma block_num_zero_buffer_holds_firmware :
  reachable sample_header m_block2_written /\
  block_num (dfu m_block2_written) = 0 /\
  firstn 4 (buf (dfu m_block2_written)) = firmware_block /\
  buf_holds_command (dfu m_block2_written) = false /\
  In (dfu_mem_write (firstn 256 (buf (dfu m_block2_written))) 0x08004000 256)
     (trace m_block2_written).
Proof.
  split.
  - exists (power_on sample_header).
    exists [request DFU_DNLOAD 2 256; DataOut firmware_block;
            request DFU_GETSTATUS 0 6; DataIn].
    vm_compute. reflexivity.
  - repeat split; try (vm_compute; reflexivity).
    vm_compute. right. right. left. reflexivity.
Qed.

(** ** Further properties of the handlers *)

Lemma store_length {A : Type} (i : nat) (v : A) (a : list A) :
  length (store i v a) = length a.
Proof.
  revert i. induction a as [| h t IH]; intros [| j]; cbn; auto.
Qed.

Ltac split_ifs :=
  repeat match goal with
         | |- context [if ?c then _ else _] => destruct c eqn:?; exec
         end.

Ltac solve_calls :=
  first [ exists []; split; [symmetry; apply app_nil_r | reflexivity]
        | eexists; split; [reflexivity | reflexivity]
        | eexists; split; [symmetry; apply app_assoc | reflexivity] ].

Ltac one_of :=
  first [ reflexivity
        | left; reflexivity
        | right; left; reflexivity
        | right; right; reflexivity ].

Ltac solve_trace :=
  first [ reflexivity
        | symmetry; apply app_nil_r
        | symmetry; apply app_assoc ].

Ltac frame_goal :=
  eexists; eexists; split; [reflexivity |]; exec;
  split; [solve_trace |];
  repeat split; try reflexivity;
  try (rewrite !store_length; reflexivity);
  try (left; reflexivity); try (right; reflexivity).

Lemma request_table_frame (k : dfu_header) :
  Forall request_frame (dfu_request_process k).
Proof.
  unfold dfu_request_process.
  repeat constructor; intros req m;
    destruct m as [d ti to s0 s1 s2 f tr];
    destruct d as [st t0 t1 t2 sta istr ms dl bn ba bf].
  - unfold dfu_detach. exec. split_ifs; frame_goal.
  - unfold dfu_dnload. exec. split_ifs; frame_goal.
  - unfold dfu_upload. exec. split_ifs; frame_goal.
  - unfold dfu_getstatus, SET_POLLING_TIMEOUT. exec. split_ifs; frame_goal.
  - unfold dfu_clrstatus. exec. split_ifs; frame_goal.
  - unfold dfu_getstate. exec. frame_goal.
  - unfold dfu_abort. exec. split_ifs; frame_goal.
Qed.

Lemma dispatch_in (k : dfu_header) (req : usb_req) :
  bRequest req < DFU_REQ_MAX ->
  exists h,
    In h (dfu_request_process k) /\
    dfu_req_handler k req = (h req ;; ret USBD_OK).
Proof.
  intros Hlt. unfold dfu_req_handler.
  replace (bRequest req <? DFU_REQ_MAX) with true
    by (symmetry; apply Z.ltb_lt; exact Hlt).
  eexists. split; [| reflexivity].
  apply nth_In. unfold DFU_REQ_MAX in Hlt. cbn [length dfu_request_process].
  lia.
Qed.

Lemma request_frame_dispatched (k : dfu_header) (req : usb_req) (m : machine) :
  bRequest req < DFU_REQ_MAX ->
  exists h m',
    request_frame h /\ h req m = Ret tt m' /\
    dfu_req_handler k req m = Ret USBD_OK m'.
Proof.
  intros Hlt.
  destruct (dispatch_in k req Hlt) as (h & Hin & Heq).
  pose proof (request_table_frame k) as Hall.
  rewrite Forall_forall in Hall. specialize (Hall h Hin).
  destruct (Hall req m) as (m' & calls & Hrun & _).
  exists h, m'. split; [exact Hall |]. split; [exact Hrun |].
  rewrite Heq. unfold bind, ret. rewrite Hrun. reflexivity.
Qed.


(** X2. Whatever the request and the state, a class request calls nothing
    but the adapter read and the bus primitives (disconnect, connect, delay):
    it never initialises, erases, writes or deinitialises the memory and
    never resets the system. *)
Theorem requests_never_modify_memory
    (k : dfu_header) (req : usb_req) (m : machine) :
  exists st m' calls,
    dfu_req_handler k req m = Ret st m' /\
    trace m' = trace m ++ calls /\
    forallb request_call calls = true.
Proof.
  destruct (Z.ltb_spec (bRequest req) DFU_REQ_MAX) as [Hlt | Hge].
  - destruct (request_frame_dispatched k req m Hlt)
      as (h & m' & Hfr & Hh & Hrun).
    destruct (Hfr req m) as (m2 & calls & Hh2 & Htr & Hsafe & _).
    rewrite Hh in Hh2. injection Hh2 as <-.
    exists USBD_OK, m', calls. auto.
  - exists USBD_FAIL, m, []. rewrite (dispatch_unknown k req m Hge).
    split; [reflexivity |]. split; [symmetry; apply app_nil_r | reflexivity].
Qed.

(** X3. No class request changes the base address, the size of the staging
    buffer or the functional descriptor: the address set by a command stays
    until the next command or the next activation. *)
Theorem requests_keep_base_addr
    (k : dfu_header) (req : usb_req) (m : machine) :
  exists st m',
    dfu_req_handler k req m = Ret st m' /\
    base_addr (dfu m') = base_addr (dfu m) /\
    length (buf (dfu m')) = length (buf (dfu m)) /\
    dfu_func m' = dfu_func m.
Proof.
  destruct (Z.ltb_spec (bRequest req) DFU_REQ_MAX) as [Hlt | Hge].
  - destruct (request_frame_dispatched k req m Hlt)
      as (h & m' & Hfr & Hh & Hrun).
    destruct (Hfr req m) as (m2 & calls & Hh2 & _ & _ & Hba & Hlen & Hf & _).
    rewrite Hh in Hh2. injection Hh2 as <-.
    exists USBD_OK, m'. auto.
  - exists USBD_FAIL, m. rewrite (dispatch_unknown k req m Hge). auto.
Qed.

(** ** The data-stage handler *)

(** X4. The data-stage handler ends in the system reset exactly when the
    state is MANIFEST and the manifestation-tolerant bit is clear; in every
    other case it returns USBD_OK. *)
Theorem dfu_ctlx_in_resets_iff (k : dfu_header) (m : machine) :
  (exists m', dfu_ctlx_in k m = Halt m') <->
  (bState (dfu m) = STATE_DFU_MANIFEST /\
   manifestation_tolerant (dfu_func m) = false).
Proof.
  unfold manifestation_tolerant. change USB_DFU_MANIFEST_TOLERANT with 4.
  unfold dfu_ctlx_in, dfu_getstatus_complete, dfu_mode_leave. exec.
  destruct (STATE_DFU_DNBUSY =? bState (dfu m)) eqn:Hbusy.
  - apply Z.eqb_eq in Hbusy. split.
    + intros [m' H]. exfalso. revert H. split_ifs; discriminate.
    + intros [Hst _]. rewrite Hst in Hbusy. discriminate.
  - destruct (STATE_DFU_MANIFEST =? bState (dfu m)) eqn:Hman; exec.
    + apply Z.eqb_eq in Hman.
      destruct (bits_set (bmAttributes (dfu_func m)) 4); exec; split.
      * intros [m' H]. discriminate.
      * intros [_ H]. discriminate.
      * intros _. split; [symmetry; exact Hman | reflexivity].
      * intros _. eexists. reflexivity.
    + apply Z.eqb_neq in Hman. split.
      * intros [m' H]. discriminate.
      * intros [Hst _]. congruence.
Qed.

Lemma dfu_ctlx_in_resets_iff_witness :
  exists m', dfu_ctlx_in sample_header m_manifest = Halt m'.
Proof.
  apply (proj2 (dfu_ctlx_in_resets_iff sample_header m_manifest)).
  split; reflexivity.
Defined.

(** X5. Outside DNBUSY and MANIFEST the completion of a control IN stage
    changes nothing: the machine is returned as it was. *)
Theorem dfu_ctlx_in_other_states (k : dfu_header) (m : machine) :
  bState (dfu m) <> STATE_DFU_DNBUSY ->
  bState (dfu m) <> STATE_DFU_MANIFEST ->
  dfu_ctlx_in k m = Ret USBD_OK m.
Proof.
  intros Hb Hm.
  unfold dfu_ctlx_in, dfu_getstatus_complete. exec.
  replace (STATE_DFU_DNBUSY =? bState (dfu m)) with false
    by (symmetry; apply Z.eqb_neq; congruence).
  replace (STATE_DFU_MANIFEST =? bState (dfu m)) with false
    by (symmetry; apply Z.eqb_neq; congruence).
  reflexivity.
Qed.

Lemma dfu_ctlx_in_other_states_witness :
  dfu_ctlx_in sample_header m_idle = Ret USBD_OK m_idle.
Proof.
  apply (dfu_ctlx_in_other_states sample_header m_idle).
  - vm_compute. discriminate.
  - vm_compute. discriminate.
Defined.

(** X6. In DNBUSY the data-stage handler always returns in DNLOAD_SYNC with
    the data length cleared, whatever is staged; it makes at most one
    external call and leaves the status, the poll timeout, the string index,
    the manifestation state, the buffer and both transactions as they
    were. *)
Theorem dnbusy_completion_frame (k : dfu_header) (m : machine) :
  bState (dfu m) = STATE_DFU_DNBUSY ->
  exists m' calls,
    dfu_ctlx_in k m = Ret USBD_OK m' /\
    trace m' = trace m ++ calls /\
    (length calls <= 1)%nat /\
    bState (dfu m') = STATE_DFU_DNLOAD_SYNC /\
    data_len (dfu m') = 0 /\
    bStatus (dfu m') = bStatus (dfu m) /\
    poll_timeout (dfu m') = poll_timeout (dfu m) /\
    iString (dfu m') = iString (dfu m) /\
    manifest_state (dfu m') = manifest_state (dfu m) /\
    buf (dfu m') = buf (dfu m) /\
    transc_in m' = transc_in m /\
    transc_out m' = transc_out m.
Proof.
  intros Hst.
  unfold dfu_ctlx_in, dfu_getstatus_complete. exec.
  rewrite Hst, Z.eqb_refl.
  split_ifs; eexists; eexists; (split; [reflexivity |]); exec;
    (split; [solve_trace |]); cbn [length]; repeat split; auto.
Qed.

Lemma dnbusy_completion_frame_witness :
  exists m' calls,
    dfu_ctlx_in sample_header m_dnbusy = Ret USBD_OK m' /\
    trace m' = trace m_dnbusy ++ calls /\
    (length calls <= 1)%nat /\
    bState (dfu m') = STATE_DFU_DNLOAD_SYNC /\
    data_len (dfu m') = 0 /\
    bStatus (dfu m') = bStatus (dfu m_dnbusy) /\
    poll_timeout (dfu m') = poll_timeout (dfu m_dnbusy) /\
    iString (dfu m') = iString (dfu m_dnbusy) /\
    manifest_state (dfu m') = manifest_state (dfu m_dnbusy) /\
    buf (dfu m') = buf (dfu m_dnbusy) /\
    transc_in m' = transc_in m_dnbusy /\
    transc_out m' = transc_out m_dnbusy.
Proof.
  apply (dnbusy_completion_frame sample_header m_dnbusy).
  reflexivity.
Defined.

(** X7. Block number 1 is accepted by a download but dropped by the
    decoder: in DNBUSY with block number 1 nothing is written, erased or
    otherwise called, the base address is kept, the block number stays 1 and
    the state advances to DNLOAD_SYNC as for a written block. *)
Theorem dnbusy_block1_dropped (k : dfu_header) (m : machine) :
  bState (dfu m) = STATE_DFU_DNBUSY ->
  block_num (dfu m) = 1 ->
  exists m',
    dfu_ctlx_in k m = Ret USBD_OK m' /\
    trace m' = trace m /\
    base_addr (dfu m') = base_addr (dfu m) /\
    block_num (dfu m') = 1 /\
    data_len (dfu m') = 0 /\
    bState (dfu m') = STATE_DFU_DNLOAD_SYNC.
Proof.
  intros Hst Hbn.
  unfold dfu_ctlx_in, dfu_getstatus_complete. exec.
  rewrite Hst, Hbn, Z.eqb_refl.
  change (0 =? 1) with false. change (1 <? 1) with false. exec.
  eexists. repeat split; try reflexivity. exact Hbn.
Qed.

Lemma dnbusy_block1_dropped_witness :
  exists m',
    dfu_ctlx_in sample_header m_block1_busy = Ret USBD_OK m' /\
    trace m' = trace m_block1_busy /\
    base_addr (dfu m') = base_addr (dfu m_block1_busy) /\
    block_num (dfu m') = 1 /\
    data_len (dfu m') = 0 /\
    bState (dfu m') = STATE_DFU_DNLOAD_SYNC.
Proof.
  apply (dnbusy_block1_dropped sample_header m_block1_busy).
  - reflexivity.
  - reflexivity.
Defined.

(** ** The address carried by a command *)

Lemma load32_le_bytes32 (c a : Z) (rest : list Z) :
  0 <= a < 4294967296 ->
  load32 (c :: le_bytes32 a ++ rest) 1 = a.
Proof.
  intros Ha. unfold load32, le_bytes32. cbn [nth Nat.add app].
  change 255 with (Z.ones 8). rewrite !Z.land_ones by lia.
  rewrite !Z.shiftl_mul_pow2, !Z.shiftr_div_pow2 by lia.
  change (2 ^ 8) with 256. change (2 ^ 16) with 65536.
  change (2 ^ 24) with 16777216.
  Z.div_mod_to_equations. lia.
Qed.

(** X8. A 5-byte block-0 command carrying the address [a] as four bytes,
    least significant first, is decoded to exactly [a]: SET_ADDRESS_POINTER
    makes it the base address without any external call, ERASE makes it the
    base address and erases at [a]. *)
Theorem command_address_decoded
    (k : dfu_header) (m : machine) (c a : Z) (rest : list Z) :
  0 <= a < 4294967296 ->
  bState (dfu m) = STATE_DFU_DNBUSY ->
  block_num (dfu m) = 0 ->
  data_len (dfu m) = 5 ->
  buf (dfu m) = c :: le_bytes32 a ++ rest ->
  c = SET_ADDRESS_POINTER \/ c = ERASE ->
  exists m',
    dfu_ctlx_in k m = Ret USBD_OK m' /\
    base_addr (dfu m') = a /\
    trace m' = trace m ++ (if c =? ERASE then [dfu_mem_erase a] else []) /\
    bState (dfu m') = STATE_DFU_DNLOAD_SYNC.
Proof.
  intros Ha Hst Hbn Hlen Hbuf Hc.
  unfold dfu_ctlx_in, dfu_getstatus_complete. exec.
  rewrite Hst, Hbn, Hlen, Hbuf, !Z.eqb_refl.
  change (1 =? 5) with false. cbv iota.
  rewrite (load32_le_bytes32 c a rest Ha). cbn [nth].
  destruct Hc as [-> | ->].
  - rewrite Z.eqb_refl. change (SET_ADDRESS_POINTER =? ERASE) with false.
    exec. eexists. repeat split; try reflexivity.
    exec. symmetry. apply app_nil_r.
  - change (SET_ADDRESS_POINTER =? ERASE) with false. rewrite Z.eqb_refl.
    exec. eexists. repeat split; reflexivity.
Qed.

Lemma command_address_decoded_witness :
  exists m',
    dfu_ctlx_in sample_header m_setaddr_busy = Ret USBD_OK m' /\
    base_addr (dfu m') = 0x08008000 /\
    trace m' = trace m_setaddr_busy ++
      (if SET_ADDRESS_POINTER =? ERASE then [dfu_mem_erase 0x08008000] else []) /\
    bState (dfu m') = STATE_DFU_DNLOAD_SYNC.
Proof.
  apply (command_address_decoded sample_header m_setaddr_busy
           SET_ADDRESS_POINTER 0x08008000 (repeat 0 2043)).
  - lia.
  - reflexivity.
  - reflexivity.
  - reflexivity.
  - reflexivity.
  - left. reflexivity.
Defined.

(** ** Sequences of requests *)

Lemma run_cons (k : dfu_header) (i : input) (rest : list input) (m m1 : machine) :
  step k i m = Ret tt m1 ->
  run k (i :: rest) m = run k rest m1.
Proof.
  intros H. cbn [run]. unfold bind. rewrite H. reflexivity.
Qed.


Ltac dispatch_known :=
  unfold request, dfu_req_handler; cbn [bRequest wValue wLength];
  repeat match goal with
         | |- context [?c <? DFU_REQ_MAX] =>
             change (c <? DFU_REQ_MAX) with true
         end;
  cbv iota;
  repeat match goal with
         | |- context [nth (Z.to_nat ?c) (dfu_request_process ?k) ?d] =>
             let h := eval cbv in (Z.to_nat c) in
             change (nth (Z.to_nat c) (dfu_request_process k) d)
               with (nth h (dfu_request_process k) d)
         end;
  cbn [nth dfu_request_process].

(** X9. The base address set by a SET_ADDRESS_POINTER command is kept
    through the following GETSTATUS and ABORT, and an UPLOAD of block
    [b >= 2] then reads at [(b - 2) * TRANSFER_SIZE + a]. *)
Theorem set_address_then_upload
    (k : dfu_header) (m : machine) (a b len : Z) (rest : list Z) :
  0 <= a < 4294967296 ->
  bState (dfu m) = STATE_DFU_DNBUSY ->
  block_num (dfu m) = 0 ->
  data_len (dfu m) = 5 ->
  buf (dfu m) = SET_ADDRESS_POINTER :: le_bytes32 a ++ rest ->
  2 <= b -> 0 < len ->
  exists m',
    run k [DataIn; request DFU_GETSTATUS 0 6; request DFU_ABORT 0 0;
           request DFU_UPLOAD b len] m = Ret tt m' /\
    trace m' = trace m ++ [dfu_mem_read (block_address k b a) len] /\
    xfer_buf (transc_in m') = PtrMemRead (block_address k b a) len /\
    xfer_len (transc_in m') = len /\
    bState (dfu m') = STATE_DFU_UPLOAD_IDLE /\
    base_addr (dfu m') = a.
Proof.
  intros Ha Hst Hbn Hlen Hbuf Hb Hl.
  unfold run, step. dispatch_known.
  unfold dfu_ctlx_in, dfu_getstatus_complete. exec.
  rewrite Hst, Hbn, Hlen, Hbuf, !Z.eqb_refl.
  change (1 =? 5) with false. cbv iota.
  rewrite (load32_le_bytes32 _ a rest Ha). exec.
  unfold dfu_getstatus. exec.
  rewrite !Z.eqb_refl. cbn [negb]. exec.
  unfold dfu_abort. exec.
  change (abortable STATE_DFU_DNLOAD_IDLE) with true. exec.
  unfold dfu_upload. cbn [wLength wValue]. exec.
  replace (len <=? 0) with false by (symmetry; apply Z.leb_gt; lia).
  exec. rewrite Z.eqb_refl. cbn [orb]. exec.
  replace (0 =? b) with false by (symmetry; apply Z.eqb_neq; lia).
  replace (1 <? b) with true by (symmetry; apply Z.ltb_lt; lia).
  exec. rewrite u32_block_address.
  eexists. repeat split; reflexivity.
Qed.

Lemma set_address_then_upload_witness :
  exists m',
    run sample_header
      [DataIn; request DFU_GETSTATUS 0 6; request DFU_ABORT 0 0;
       request DFU_UPLOAD 2 64] m_setaddr_busy = Ret tt m' /\
    trace m' = trace m_setaddr_busy ++
      [dfu_mem_read (block_address sample_header 2 0x08008000) 64] /\
    xfer_buf (transc_in m') =
      PtrMemRead (block_address sample_header 2 0x08008000) 64 /\
    xfer_len (transc_in m') = 64 /\
    bState (dfu m') = STATE_DFU_UPLOAD_IDLE /\
    base_addr (dfu m') = 0x08008000.
Proof.
  apply (set_address_then_upload sample_header m_setaddr_busy
           0x08008000 2 64 (repeat 0 2043)).
  - lia.
  - reflexivity.
  - reflexivity.
  - reflexivity.
  - reflexivity.
  - lia.
  - lia.
Defined.



(** X11. A zero-length DNLOAD received in IDLE or DNLOAD_IDLE followed by
    one GETSTATUS poll leads to MANIFEST with the manifestation in progress;
    the poll sets only the low byte of the poll timeout, to 1, and makes no
    external call. *)
Theorem zero_length_download_starts_manifest
    (k : dfu_header) (m : machine) (block : Z) :
  bState (dfu m) = STATE_DFU_IDLE \/ bState (dfu m) = STATE_DFU_DNLOAD_IDLE ->
  exists m',
    run k [request DFU_DNLOAD block 0; request DFU_GETSTATUS 0 6] m
      = Ret tt m' /\
    bState (dfu m') = STATE_DFU_MANIFEST /\
    manifest_state (dfu m') = MANIFEST_IN_PROGRESS /\
    bwPollTimeout0 (dfu m') = 1 /\
    bwPollTimeout1 (dfu m') = bwPollTimeout1 (dfu m) /\
    bwPollTimeout2 (dfu m') = bwPollTimeout2 (dfu m) /\
    block_num (dfu m') = block_num (dfu m) /\
    data_len (dfu m') = data_len (dfu m) /\
    trace m' = trace m.
Proof.
  intros Hst.
  unfold run, step. dispatch_known.
  unfold dfu_dnload. cbn [wLength wValue]. exec.
  replace ((bState (dfu m) =? STATE_DFU_IDLE)
           || (bState (dfu m) =? STATE_DFU_DNLOAD_IDLE)) with true
    by (destruct Hst as [-> | ->]; reflexivity).
  change (0 <? 0) with false. exec.
  unfold dfu_getstatus. exec.
  change (STATE_DFU_MANIFEST_SYNC =? STATE_DFU_DNLOAD_SYNC) with false.
  rewrite !Z.eqb_refl. exec.
  eexists. repeat split; reflexivity.
Qed.

Lemma zero_length_download_starts_manifest_witness :
  exists m',
    run sample_header [request DFU_DNLOAD 0 0; request DFU_GETSTATUS 0 6] m_idle
      = Ret tt m' /\
    bState (dfu m') = STATE_DFU_MANIFEST /\
    manifest_state (dfu m') = MANIFEST_IN_PROGRESS /\
    bwPollTimeout0 (dfu m') = 1 /\
    bwPollTimeout1 (dfu m') = bwPollTimeout1 (dfu m_idle) /\
    bwPollTimeout2 (dfu m') = bwPollTimeout2 (dfu m_idle) /\
    block_num (dfu m') = block_num (dfu m_idle) /\
    data_len (dfu m') = data_len (dfu m_idle) /\
    trace m' = trace m_idle.
Proof.
  apply (zero_length_download_starts_manifest sample_header m_idle 0).
  left. reflexivity.
Defined.

(** X12. With the manifestation-tolerant bit set, the whole manifestation
    (zero-length DNLOAD, GETSTATUS, completion of the status stage,
    GETSTATUS) returns the device to IDLE with the manifestation complete,
    the low poll timeout byte cleared and no external call at all: the
    memory is not deinitialised and the system is not reset. *)
Theorem tolerant_manifestation_returns_to_idle
    (k : dfu_header) (m : machine) (block : Z) :
  bState (dfu m) = STATE_DFU_IDLE \/ bState (dfu m) = STATE_DFU_DNLOAD_IDLE ->
  manifestation_tolerant (dfu_func m) = true ->
  exists m',
    run k [request DFU_DNLOAD block 0; request DFU_GETSTATUS 0 6; DataIn;
           request DFU_GETSTATUS 0 6] m = Ret tt m' /\
    bState (dfu m') = STATE_DFU_IDLE /\
    manifest_state (dfu m') = MANIFEST_COMPLETE /\
    bwPollTimeout0 (dfu m') = 0 /\
    bStatus (dfu m') = bStatus (dfu m) /\
    base_addr (dfu m') = base_addr (dfu m) /\
    trace m' = trace m.
Proof.
  intros Hst Htol. unfold manifestation_tolerant in Htol.
  change USB_DFU_MANIFEST_TOLERANT with 4 in Htol.
  unfold run, step. dispatch_known.
  unfold dfu_dnload. cbn [wLength wValue]. exec.
  replace ((bState (dfu m) =? STATE_DFU_IDLE)
           || (bState (dfu m) =? STATE_DFU_DNLOAD_IDLE)) with true
    by (destruct Hst as [-> | ->]; reflexivity).
  change (0 <? 0) with false. exec.
  unfold dfu_getstatus at 1. exec.
  change (STATE_DFU_MANIFEST_SYNC =? STATE_DFU_DNLOAD_SYNC) with false.
  rewrite !Z.eqb_refl. exec.
  unfold dfu_ctlx_in, dfu_getstatus_complete, dfu_mode_leave. exec.
  change (STATE_DFU_DNBUSY =? STATE_DFU_MANIFEST) with false.
  rewrite !Z.eqb_refl. exec. rewrite Htol. exec.
  unfold dfu_getstatus. exec.
  change (STATE_DFU_MANIFEST_SYNC =? STATE_DFU_DNLOAD_SYNC) with false.
  change (MANIFEST_IN_PROGRESS =? MANIFEST_COMPLETE) with false.
  rewrite !Z.eqb_refl. exec. rewrite Htol. cbn [andb]. exec.
  eexists. repeat split; reflexivity.
Qed.

Lemma tolerant_manifestation_returns_to_idle_witness :
  exists m',
    run sample_header
      [request DFU_DNLOAD 0 0; request DFU_GETSTATUS 0 6; DataIn;
       request DFU_GETSTATUS 0 6] (with_bmAttributes 0x0F m_idle) = Ret tt m' /\
    bState (dfu m') = STATE_DFU_IDLE /\
    manifest_state (dfu m') = MANIFEST_COMPLETE /\
    bwPollTimeout0 (dfu m') = 0 /\
    bStatus (dfu m') = bStatus (dfu (with_bmAttributes 0x0F m_idle)) /\
    base_addr (dfu m') = base_addr (dfu (with_bmAttributes 0x0F m_idle)) /\
    trace m' = trace (with_bmAttributes 0x0F m_idle).
Proof.
  apply (tolerant_manifestation_returns_to_idle sample_header
           (with_bmAttributes 0x0F m_idle) 0).
  - left. reflexivity.
  - reflexivity.
Defined.

(** ** DNLOAD requests *)

(** X13. A DNLOAD with a non-zero length received in IDLE or DNLOAD_IDLE
    stages the request's block number and length as they are and arms the
    OUT transaction on the staging buffer for that length.  The length is
    not compared with the transfer size: any non-zero length is armed. *)
Theorem dnload_stages_request (k : dfu_header) (m : machine) (req : usb_req) :
  bRequest req = DFU_DNLOAD ->
  0 < wLength req ->
  bState (dfu m) = STATE_DFU_IDLE \/ bState (dfu m) = STATE_DFU_DNLOAD_IDLE ->
  exists m',
    dfu_req_handler k req m = Ret USBD_OK m' /\
    bState (dfu m') = STATE_DFU_DNLOAD_SYNC /\
    block_num (dfu m') = wValue req /\
    data_len (dfu m') = wLength req /\
    transc_out m' =
      {| xfer_buf := PtrBuf; xfer_len := wLength req; xfer_count := 0 |} /\
    buf (dfu m') = buf (dfu m) /\
    manifest_state (dfu m') = manifest_state (dfu m) /\
    trace m' = trace m.
Proof.
  intros Hreq Hlen Hst.
  rewrite (dispatch k req DFU_DNLOAD Hreq)
    by (unfold DFU_DNLOAD, DFU_REQ_MAX; lia).
  change (nth (Z.to_nat DFU_DNLOAD) (dfu_request_process k) (fun _ => ret tt))
    with dfu_dnload.
  unfold dfu_dnload. exec.
  replace ((bState (dfu m) =? STATE_DFU_IDLE)
           || (bState (dfu m) =? STATE_DFU_DNLOAD_IDLE)) with true
    by (destruct Hst as [-> | ->]; reflexivity).
  replace (0 <? wLength req) with true by (symmetry; apply Z.ltb_lt; lia).
  exec. eexists. repeat split; reflexivity.
Qed.

Lemma dnload_stages_request_witness :
  exists m',
    dfu_req_handler sample_header (dnload_req 2 4096) m_idle = Ret USBD_OK m' /\
    bState (dfu m') = STATE_DFU_DNLOAD_SYNC /\
    block_num (dfu m') = wValue (dnload_req 2 4096) /\
    data_len (dfu m') = wLength (dnload_req 2 4096) /\
    transc_out m' =
      {| xfer_buf := PtrBuf; xfer_len := wLength (dnload_req 2 4096);
         xfer_count := 0 |} /\
    buf (dfu m') = buf (dfu m_idle) /\
    manifest_state (dfu m') = manifest_state (dfu m_idle) /\
    trace m' = trace m_idle.
Proof.
  apply (dnload_stages_request sample_header m_idle (dnload_req 2 4096)).
  - reflexivity.
  - reflexivity.
  - left. reflexivity.
Defined.

(** X14. A DNLOAD received in any state other than IDLE and DNLOAD_IDLE is
    ignored: the request is answered with USBD_OK and the machine is left as
    it was, whatever the length. *)
Theorem dnload_ignored_elsewhere (k : dfu_header) (m : machine) (req : usb_req) :
  bRequest req = DFU_DNLOAD ->
  bState (dfu m) <> STATE_DFU_IDLE ->
  bState (dfu m) <> STATE_DFU_DNLOAD_IDLE ->
  dfu_req_handler k req m = Ret USBD_OK m.
Proof.
  intros Hreq H1 H2.
  rewrite (dispatch k req DFU_DNLOAD Hreq)
    by (unfold DFU_DNLOAD, DFU_REQ_MAX; lia).
  change (nth (Z.to_nat DFU_DNLOAD) (dfu_request_process k) (fun _ => ret tt))
    with dfu_dnload.
  unfold dfu_dnload. exec.
  replace (bState (dfu m) =? STATE_DFU_IDLE) with false
    by (symmetry; apply Z.eqb_neq; exact H1).
  replace (bState (dfu m) =? STATE_DFU_DNLOAD_IDLE) with false
    by (symmetry; apply Z.eqb_neq; exact H2).
  reflexivity.
Qed.

Lemma dnload_ignored_elsewhere_witness :
  dfu_req_handler sample_header (dnload_req 2 256) m_dnbusy = Ret USBD_OK m_dnbusy.
Proof.
  apply (dnload_ignored_elsewhere sample_header m_dnbusy (dnload_req 2 256)).
  - reflexivity.
  - vm_compute. discriminate.
  - vm_compute. discriminate.
Defined.

(** ** UPLOAD requests *)

(** X15. An UPLOAD with length zero forces the state to IDLE from every
    state, ERROR, DNBUSY and MANIFEST_WAIT_RESET included, and changes
    nothing else: the status, the staged block and the transactions are
    kept. *)
Theorem upload_zero_length_forces_idle
    (k : dfu_header) (m : machine) (req : usb_req) :
  bRequest req = DFU_UPLOAD ->
  wLength req = 0 ->
  dfu_req_handler k req m =
    Ret USBD_OK (with_dfu (set_bState STATE_DFU_IDLE) m).
Proof.
  intros Hreq Hlen.
  rewrite (dispatch k req DFU_UPLOAD Hreq)
    by (unfold DFU_UPLOAD, DFU_REQ_MAX; lia).
  change (nth (Z.to_nat DFU_UPLOAD) (dfu_request_process k) (fun _ => ret tt))
    with (dfu_upload k).
  unfold dfu_upload. rewrite Hlen. reflexivity.
Qed.

Lemma upload_zero_length_forces_idle_witness :
  dfu_req_handler sample_header (upload_req 0 0) m_error =
    Ret USBD_OK (with_dfu (set_bState STATE_DFU_IDLE) m_error).
Proof.
  apply (upload_zero_length_forces_idle sample_header m_error (upload_req 0 0)).
  - reflexivity.
  - reflexivity.
Defined.

(** X16. An UPLOAD of block 0 received in IDLE or UPLOAD_IDLE puts the
    three command codes GET_COMMANDS, SET_ADDRESS_POINTER, ERASE at the head
    of the staging buffer, leaves the rest of the buffer, and arms an IN
    transaction of exactly 3 bytes on it, whatever length was asked; it
    reads no memory.  The state becomes IDLE when more than 3 bytes were
    asked and UPLOAD_IDLE otherwise. *)
Theorem upload_block0_command_list
    (k : dfu_header) (m : machine) (req : usb_req) (b0 b1 b2 : Z) (rest : list Z) :
  bRequest req = DFU_UPLOAD ->
  wValue req = 0 ->
  0 < wLength req ->
  bState (dfu m) = STATE_DFU_IDLE \/ bState (dfu m) = STATE_DFU_UPLOAD_IDLE ->
  buf (dfu m) = b0 :: b1 :: b2 :: rest ->
  exists m',
    dfu_req_handler k req m = Ret USBD_OK m' /\
    buf (dfu m') = GET_COMMANDS :: SET_ADDRESS_POINTER :: ERASE :: rest /\
    xfer_buf (transc_in m') = PtrBuf /\
    xfer_len (transc_in m') = 3 /\
    bState (dfu m') =
      (if 3 <? wLength req then STATE_DFU_IDLE else STATE_DFU_UPLOAD_IDLE) /\
    block_num (dfu m') = 0 /\
    data_len (dfu m') = wLength req /\
    trace m' = trace m.
Proof.
  intros Hreq Hval Hlen Hst Hbuf.
  rewrite (dispatch k req DFU_UPLOAD Hreq)
    by (unfold DFU_UPLOAD, DFU_REQ_MAX; lia).
  change (nth (Z.to_nat DFU_UPLOAD) (dfu_request_process k) (fun _ => ret tt))
    with (dfu_upload k).
  unfold dfu_upload. rewrite Hval.
  replace (wLength req <=? 0) with false by (symmetry; apply Z.leb_gt; lia).
  exec.
  replace ((bState (dfu m) =? STATE_DFU_IDLE)
           || (bState (dfu m) =? STATE_DFU_UPLOAD_IDLE)) with true
    by (destruct Hst as [-> | ->]; reflexivity).
  exec. rewrite Z.eqb_refl. exec.
  eexists. split; [reflexivity |]. exec. rewrite Hbuf. cbn [store].
  repeat split; reflexivity.
Qed.

Lemma upload_block0_command_list_witness :
  exists m',
    dfu_req_handler sample_header (upload_req 0 64) m_idle = Ret USBD_OK m' /\
    buf (dfu m') =
      GET_COMMANDS :: SET_ADDRESS_POINTER :: ERASE :: repeat 0 2045 /\
    xfer_buf (transc_in m') = PtrBuf /\
    xfer_len (transc_in m') = 3 /\
    bState (dfu m') =
      (if 3 <? wLength (upload_req 0 64) then STATE_DFU_IDLE
       else STATE_DFU_UPLOAD_IDLE) /\
    block_num (dfu m') = 0 /\
    data_len (dfu m') = wLength (upload_req 0 64) /\
    trace m' = trace m_idle.
Proof.
  apply (upload_block0_command_list sample_header m_idle (upload_req 0 64)
           0 0 0 (repeat 0 2045)).
  - reflexivity.
  - reflexivity.
  - reflexivity.
  - left. reflexivity.
  - reflexivity.
Defined.

(** X17. An UPLOAD with a non-zero length received outside IDLE and
    UPLOAD_IDLE arms nothing and reads nothing; it keeps the state but
    clears the staged data length and block number, so a download staged in
    DNLOAD_SYNC is lost. *)
Theorem upload_elsewhere_clears_staging
    (k : dfu_header) (m : machine) (req : usb_req) :
  bRequest req = DFU_UPLOAD ->
  0 < wLength req ->
  bState (dfu m) <> STATE_DFU_IDLE ->
  bState (dfu m) <> STATE_DFU_UPLOAD_IDLE ->
  dfu_req_handler k req m =
    Ret USBD_OK (with_dfu (set_block_num 0) (with_dfu (set_data_len 0) m)).
Proof.
  intros Hreq Hlen H1 H2.
  rewrite (dispatch k req DFU_UPLOAD Hreq)
    by (unfold DFU_UPLOAD, DFU_REQ_MAX; lia).
  change (nth (Z.to_nat DFU_UPLOAD) (dfu_request_process k) (fun _ => ret tt))
    with (dfu_upload k).
  unfold dfu_upload.
  replace (wLength req <=? 0) with false by (symmetry; apply Z.leb_gt; lia).
  exec.
  replace (bState (dfu m) =? STATE_DFU_IDLE) with false
    by (symmetry; apply Z.eqb_neq; exact H1).
  replace (bState (dfu m) =? STATE_DFU_UPLOAD_IDLE) with false
    by (symmetry; apply Z.eqb_neq; exact H2).
  reflexivity.
Qed.

Lemma upload_elsewhere_clears_staging_witness :
  dfu_req_handler sample_header (upload_req 2 64) m_block2_staged =
    Ret USBD_OK
      (with_dfu (set_block_num 0) (with_dfu (set_data_len 0) m_block2_staged)).
Proof.
  apply (upload_elsewhere_clears_staging sample_header m_block2_staged
           (upload_req 2 64)).
  - reflexivity.
  - reflexivity.
  - vm_compute. discriminate.
  - vm_compute. discriminate.
Defined.

(** ** GETSTATUS, GETSTATE and ABORT *)

(** X18. Whatever the state, GETSTATUS arms the IN transaction with the six
    bytes at the status field and makes no external call; it never changes
    the status, the string index, the staged block number and data length,
    the base address, the manifestation state or the buffer. *)
Theorem getstatus_always_reports (k : dfu_header) (m : machine) (req : usb_req) :
  bRequest req = DFU_GETSTATUS ->
  exists m',
    dfu_req_handler k req m = Ret USBD_OK m' /\
    xfer_buf (transc_in m') = PtrStatus /\
    xfer_len (transc_in m') = 6 /\
    trace m' = trace m /\
    bStatus (dfu m') = bStatus (dfu m) /\
    iString (dfu m') = iString (dfu m) /\
    block_num (dfu m') = block_num (dfu m) /\
    data_len (dfu m') = data_len (dfu m) /\
    base_addr (dfu m') = base_addr (dfu m) /\
    manifest_state (dfu m') = manifest_state (dfu m) /\
    buf (dfu m') = buf (dfu m) /\
    transc_out m' = transc_out m.
Proof.
  intros Hreq.
  rewrite (dispatch k req DFU_GETSTATUS Hreq)
    by (unfold DFU_GETSTATUS, DFU_REQ_MAX; lia).
  change (nth (Z.to_nat DFU_GETSTATUS) (dfu_request_process k) (fun _ => ret tt))
    with (dfu_getstatus k).
  unfold dfu_getstatus, SET_POLLING_TIMEOUT. exec.
  split_ifs; eexists; repeat split; reflexivity.
Qed.

Lemma getstatus_always_reports_witness :
  exists m',
    dfu_req_handler sample_header getstatus_req m_error = Ret USBD_OK m' /\
    xfer_buf (transc_in m') = PtrStatus /\
    xfer_len (transc_in m') = 6 /\
    trace m' = trace m_error /\
    bStatus (dfu m') = bStatus (dfu m_error) /\
    iString (dfu m') = iString (dfu m_error) /\
    block_num (dfu m') = block_num (dfu m_error) /\
    data_len (dfu m') = data_len (dfu m_error) /\
    base_addr (dfu m') = base_addr (dfu m_error) /\
    manifest_state (dfu m') = manifest_state (dfu m_error) /\
    buf (dfu m') = buf (dfu m_error) /\
    transc_out m' = transc_out m_error.
Proof.
  apply (getstatus_always_reports sample_header m_error getstatus_req).
  reflexivity.
Defined.

(** X19. GETSTATE changes no field of the context in any state: it only
    arms a one-byte IN transaction on the state field, without any external
    call. *)
Theorem getstate_reports_state (k : dfu_header) (m : machine) (req : usb_req) :
  bRequest req = DFU_GETSTATE ->
  exists m',
    dfu_req_handler k req m = Ret USBD_OK m' /\
    dfu m' = dfu m /\
    xfer_buf (transc_in m') = PtrState /\
    xfer_len (transc_in m') = 1 /\
    transc_out m' = transc_out m /\
    trace m' = trace m.
Proof.
  intros Hreq.
  rewrite (dispatch k req DFU_GETSTATE Hreq)
    by (unfold DFU_GETSTATE, DFU_REQ_MAX; lia).
  change (nth (Z.to_nat DFU_GETSTATE) (dfu_request_process k) (fun _ => ret tt))
    with dfu_getstate.
  unfold dfu_getstate. exec.
  eexists. repeat split; reflexivity.
Qed.

Lemma getstate_reports_state_witness :
  exists m',
    dfu_req_handler sample_header getstate_req m_dnbusy = Ret USBD_OK m' /\
    dfu m' = dfu m_dnbusy /\
    xfer_buf (transc_in m') = PtrState /\
    xfer_len (transc_in m') = 1 /\
    transc_out m' = transc_out m_dnbusy /\
    trace m' = trace m_dnbusy.
Proof.
  apply (getstate_reports_state sample_header m_dnbusy getstate_req).
  reflexivity.
Defined.

(** X20. ABORT outside IDLE, DNLOAD_SYNC, DNLOAD_IDLE, MANIFEST_SYNC and
    UPLOAD_IDLE does nothing: in DNBUSY, MANIFEST, MANIFEST_WAIT_RESET and
    ERROR the machine is left as it was, so ABORT does not clear an error. *)
Theorem abort_ignored_elsewhere (k : dfu_header) (m : machine) (req : usb_req) :
  bRequest req = DFU_ABORT ->
  ~ In (bState (dfu m)) abort_states ->
  dfu_req_handler k req m = Ret USBD_OK m.
Proof.
  intros Hreq Hst. apply abortable_false in Hst.
  rewrite (dispatch k req DFU_ABORT Hreq)
    by (unfold DFU_ABORT, DFU_REQ_MAX; lia).
  change (nth (Z.to_nat DFU_ABORT) (dfu_request_process k) (fun _ => ret tt))
    with dfu_abort.
  unfold dfu_abort. exec. rewrite Hst. reflexivity.
Qed.

Lemma abort_ignored_elsewhere_witness :
  dfu_req_handler sample_header abort_req m_error = Ret USBD_OK m_error.
Proof.
  apply (abort_ignored_elsewhere sample_header m_error abort_req).
  - reflexivity.
  - vm_compute. intros H.
    repeat (destruct H as [H | H]; [discriminate |]). exact H.
Defined.



(** ** Teardown *)

(** X22. Teardown zeroes the whole context and then sets state IDLE and
    status OK: unlike activation it leaves the base address at zero.  It
    deinitialises the memory adapter, makes no other call and does not touch
    the transactions. *)
Theorem dfu_deinit_context (k : dfu_header) (m : machine) (config_index : Z) :
  exists m',
    dfu_deinit k config_index m = Ret USBD_OK m' /\
    dfu m' =
      {| bStatus := STATUS_OK;
         bwPollTimeout0 := 0; bwPollTimeout1 := 0; bwPollTimeout2 := 0;
         bState := STATE_DFU_IDLE;
         iString := 0;
         manifest_state := 0;
         data_len := 0;
         block_num := 0;
         base_addr := 0;
         buf := repeat 0 (Z.to_nat (TRANSFER_SIZE k)) |} /\
    trace m' = trace m ++ [dfu_mem_deinit] /\
    transc_in m' = transc_in m /\
    transc_out m' = transc_out m.
Proof.
  unfold dfu_deinit. exec.
  eexists. repeat split; reflexivity.
Qed.

(** ** The interface strings *)

Lemma store_firstn_skipn {A : Type} (i : nat) (v : A) (a : list A) :
  (i < length a)%nat ->
  store i v a = firstn i a ++ v :: skipn (S i) a.
Proof.
  revert i. induction a as [| h t IH]; intros [| j] Hlt; cbn in *; try lia.
  - reflexivity.
  - f_equal. apply IH. lia.
Qed.

Lemma c_string_nonzero (s : list Z) : Forall (fun c => c <> 0) (c_string s).
Proof.
  induction s as [| c t IH]; cbn; [constructor |].
  destruct (Z.eqb_spec c 0); constructor; assumption.
Qed.

Lemma strlen_c_string (s : list Z) : strlen s = Z.of_nat (length (c_string s)).
Proof.
  induction s as [| c t IH]; cbn [strlen c_string]; [reflexivity |].
  destruct (c =? 0); cbn [length]; [reflexivity | lia].
Qed.

Lemma copy_chars_c_string (s : list Z) (index : Z) (pbuf : list Z) :
  copy_chars s index pbuf = copy_chars (c_string s) index pbuf.
Proof.
  revert index pbuf. induction s as [| c t IH]; intros index pbuf; cbn.
  - reflexivity.
  - destruct (c =? 0) eqn:Hc; cbn; [reflexivity |].
    rewrite Hc. apply IH.
Qed.

(** The copy loop without wrap-around of its 8-bit index. *)
Lemma copy_chars_fits (cs : list Z) :
  Forall (fun c => c <> 0) cs ->
  forall (i : nat) (pbuf : list Z),
    (i + length cs <= 256)%nat ->
    (i + length cs <= length pbuf)%nat ->
    copy_chars cs (Z.of_nat i) pbuf =
      firstn i pbuf ++ cs ++ skipn (i + length cs) pbuf.
Proof.
  induction 1 as [| c t Hc Ht IH]; intros i pbuf H256 Hlen.
  - cbn. rewrite Nat.add_0_r, firstn_skipn. reflexivity.
  - cbn [copy_chars length] in *.
    replace (c =? 0) with false by (symmetry; apply Z.eqb_neq; exact Hc).
    rewrite Nat2Z.id.
    destruct t as [| c' t'].
    + cbn [copy_chars app length].
      rewrite store_firstn_skipn by lia.
      replace (i + 1)%nat with (S i) by lia. reflexivity.
    + replace (u8 (Z.of_nat i + 1)) with (Z.of_nat (S i)).
      2:{ unfold u8. rewrite Z.mod_small; cbn [length] in *; lia. }
      rewrite IH by (rewrite ?store_length; cbn [length] in *; lia).
      rewrite store_firstn_skipn by lia.
      replace (firstn (S i) (firstn i pbuf ++ c :: skipn (S i) pbuf))
        with (firstn i pbuf ++ [c]).
      2:{ rewrite firstn_app, firstn_firstn, length_firstn.
          replace (Nat.min (S i) i) with i by lia.
          replace (S i - Nat.min i (length pbuf))%nat with 1%nat by lia.
          reflexivity. }
      replace (skipn (S i + length (c' :: t'))
                 (firstn i pbuf ++ c :: skipn (S i) pbuf))
        with (skipn (i + S (length (c' :: t'))) pbuf).
      2:{ rewrite skipn_app, length_firstn.
          replace (S i + length (c' :: t') - Nat.min i (length pbuf))%nat
            with (S (length (c' :: t'))) by lia.
          rewrite (skipn_all2 (firstn i pbuf)) by (rewrite length_firstn; lia).
          cbn [app]. rewrite skipn_cons, skipn_skipn. f_equal. lia. }
      rewrite <- app_assoc. reflexivity.
Qed.

Lemma string_head_word (n : Z) :
  Z.lor (Z.land n 255) (Z.land (Z.shiftl USB_DESCTYPE_STR 8) 65280)
  = n mod 256 + 768.
Proof.
  change (Z.land (Z.shiftl USB_DESCTYPE_STR 8) 65280) with 768.
  change 255 with (Z.ones 8). rewrite Z.land_ones by lia.
  change (2 ^ 8) with 256.
  assert (Hdisj : Z.land (n mod 256) 768 = 0).
  { apply Z.bits_inj'. intros i Hi.
    rewrite Z.land_spec, Z.bits_0.
    destruct (Z.ltb_spec i 8) as [Hlo | Hhi].
    - change 768 with (Z.shiftl 3 8).
      rewrite Z.shiftl_spec_low by exact Hlo. apply andb_false_r.
    - change 256 with (2 ^ 8).
      rewrite Z.mod_pow2_bits_high by lia. reflexivity. }
  rewrite <- Z.lxor_lor by exact Hdisj.
  rewrite <- Z.add_nocarry_lxor by exact Hdisj.
  reflexivity.
Qed.


Lemma string_to_unicode_layout (s pbuf : list Z) :
  (length (c_string s) <= 255)%nat ->
  (length (c_string s) < length pbuf)%nat ->
  string_to_unicode (Some s) pbuf =
    ((2 * Z.of_nat (length (c_string s)) + 2) mod 256 + 768)
      :: c_string s ++ skipn (S (length (c_string s))) pbuf.
Proof.
  intros Hmax Hfit.
  unfold string_to_unicode.
  rewrite copy_chars_c_string, strlen_c_string, string_head_word.
  replace (u32 (Z.of_nat (length (c_string s)) * 2 + 2))
    with (2 * Z.of_nat (length (c_string s)) + 2)
    by (unfold u32; rewrite Z.mod_small; lia).
  destruct pbuf as [| w p]; [cbn in Hfit; lia |].
  cbn [store].
  rewrite (copy_chars_fits (c_string s) (c_string_nonzero s) 1)
    by (cbn [length] in *; lia).
  reflexivity.
Qed.

(** X24. For a string of [n <= 255] characters before its NUL and a
    descriptor of more than [n] words, [string_to_unicode] writes the
    descriptor header word (low byte the length [2 n + 2] modulo 256, high
    byte the string descriptor type 3), then the characters one per word,
    and leaves the words after them. *)
Theorem string_to_unicode_descriptor (s pbuf : list Z) :
  (length (c_string s) <= 255)%nat ->
  (length (c_string s) < length pbuf)%nat ->
  string_to_unicode (Some s) pbuf =
    ((2 * Z.of_nat (length (c_string s)) + 2) mod 256 + 768)
      :: c_string s ++ skipn (S (length (c_string s))) pbuf.
Proof.
  exact (string_to_unicode_layout s pbuf).
Qed.

Lemma string_to_unicode_descriptor_witness :
  string_to_unicode (Some [64; 73; 110; 116; 0; 88]) empty_string_desc =
    ((2 * Z.of_nat (length (c_string [64; 73; 110; 116; 0; 88])) + 2) mod 256
     + 768)
      :: c_string [64; 73; 110; 116; 0; 88]
         ++ skipn (S (length (c_string [64; 73; 110; 116; 0; 88])))
              empty_string_desc.
Proof.
  apply (string_to_unicode_descriptor [64; 73; 110; 116; 0; 88]
           empty_string_desc).
  - cbn. lia.
  - cbn. lia.
Defined.

(** ** Invariants of the reachable states *)

Lemma step_context_inv (k : dfu_header) (i : input) (m m' : machine) :
  context_inv (dfu m) = true ->
  step k i m = Ret tt m' ->
  context_inv (dfu m') = true.
Proof.
  intros Hinv Hstep.
  unfold context_inv in *. rewrite !andb_true_iff in *.
  destruct Hinv as [[Hs Hst] Hm].
  destruct i as [req | payload |]; unfold step in Hstep.
  - unfold bind, ret in Hstep.
    destruct (Z.ltb_spec (bRequest req) DFU_REQ_MAX) as [Hlt | Hge].
    + destruct (request_frame_dispatched k req m Hlt)
        as (h & m1 & Hfr & Hh & Hrun).
      rewrite Hrun in Hstep. injection Hstep as <-.
      destruct (Hfr req m)
        as (m2 & calls & Hh2 & _ & _ & _ & _ & _ & Hs' & Hst' & Hm').
      rewrite Hh in Hh2. injection Hh2 as <-.
      repeat split.
      * destruct Hs' as [-> | H]; assumption.
      * destruct Hst' as [-> | H]; assumption.
      * destruct Hm' as [-> | H]; assumption.
    + rewrite (dispatch_unknown k req m Hge) in Hstep.
      injection Hstep as <-. auto.
  - unfold ep0_data_out in Hstep.
    destruct (xfer_buf (transc_out m)); injection Hstep as <-; exec; auto.
  - revert Hstep.
    unfold dfu_ctlx_in, dfu_getstatus_complete, dfu_mode_leave. exec.
    split_ifs; intros Hstep; try discriminate;
      injection Hstep as <-; exec; repeat split; auto.
Qed.

Lemma run_context_inv (k : dfu_header) (inputs : list input) :
  forall m m',
    context_inv (dfu m) = true ->
    run k inputs m = Ret tt m' ->
    context_inv (dfu m') = true.
Proof.
  induction inputs as [| i rest IH]; intros m m' Hinv Hrun.
  - cbn in Hrun. injection Hrun as <-. exact Hinv.
  - cbn [run] in Hrun. unfold bind in Hrun.
    destruct (step k i m) as [[] m1 | m1] eqn:Hstep; [| discriminate].
    apply (IH m1 m'); [| exact Hrun].
    exact (step_context_inv k i m m1 Hinv Hstep).
Qed.

Lemma reachable_context_inv (k : dfu_header) (m : machine) :
  reachable k m -> context_inv (dfu m) = true.
Proof.
  intros (m0 & inputs & Hrun).
  unfold bind in Hrun.
  destruct (dfu_init k 0 m0) as [st m1 | m1] eqn:Hinit; [| discriminate].
  apply (run_context_inv k inputs m1 m); [| exact Hrun].
  revert Hinit. unfold dfu_init, with_strings. exec.
  intros H. injection H as _ <-. reflexivity.
Qed.

(** X25. In every state reachable after activation through requests, data
    stages and stage completions, the status field is OK or "unknown
    error": no handler ever reports any other DFU status, in particular
    never the stalled-packet status. *)
Theorem reachable_status (k : dfu_header) (m : machine) :
  reachable k m ->
  bStatus (dfu m) = STATUS_OK \/ bStatus (dfu m) = STATUS_ERR_UNKNOWN.
Proof.
  intros Hr. apply reachable_context_inv in Hr.
  unfold context_inv, status_stored in Hr.
  rewrite !andb_true_iff, orb_true_iff, !Z.eqb_eq in Hr. tauto.
Qed.

Lemma reachable_status_witness :
  bStatus (dfu m_error) = STATUS_OK \/
  bStatus (dfu m_error) = STATUS_ERR_UNKNOWN.
Proof.
  apply (reachable_status sample_header m_error).
  exists (power_on sample_header), [request DFU_CLRSTATUS 0 0].
  vm_compute. reflexivity.
Defined.

(** X26. In every reachable state the state field holds one of the nine
    declared states or the stalled-packet constant stored by an UPLOAD of
    block 1, and the manifestation state is COMPLETE or IN_PROGRESS. *)
Theorem reachable_state (k : dfu_header) (m : machine) :
  reachable k m ->
  (In (bState (dfu m)) dfu_states \/
   bState (dfu m) = STATUS_ERR_STALLEDPKT) /\
  (manifest_state (dfu m) = MANIFEST_COMPLETE \/
   manifest_state (dfu m) = MANIFEST_IN_PROGRESS).
Proof.
  intros Hr. apply reachable_context_inv in Hr.
  unfold context_inv, state_stored, manifest_stored, is_dfu_state in Hr.
  rewrite !andb_true_iff, !orb_true_iff, !Z.eqb_eq in Hr.
  destruct Hr as [[_ [Hst | Hst]] Hm].
  - split; [left | exact Hm].
    apply existsb_exists in Hst. destruct Hst as (x & Hin & Heq).
    apply Z.eqb_eq in Heq. subst x. exact Hin.
  - split; [right; exact Hst | exact Hm].
Qed.

Lemma reachable_state_witness :
  (In (bState (dfu m_block2_written)) dfu_states \/
   bState (dfu m_block2_written) = STATUS_ERR_STALLEDPKT) /\
  (manifest_state (dfu m_block2_written) = MANIFEST_COMPLETE \/
   manifest_state (dfu m_block2_written) = MANIFEST_IN_PROGRESS).
Proof.
  apply (reachable_state sample_header m_block2_written).
  exists (power_on sample_header),
    [request DFU_DNLOAD 2 256; DataOut firmware_block;
     request DFU_GETSTATUS 0 6; DataIn].
  vm_compute. reflexivity.
Defined.

(** ** A command from request to completion *)

Lemma poll_timeout_bytes (t : Z) :
  0 <= t < 16777216 ->
  Z.land t 255 + 256 * Z.land (Z.shiftr t 8) 255
  + 65536 * Z.land (Z.shiftr t 16) 255 = t.
Proof.
  intros Ht.
  change 255 with (Z.ones 8). rewrite !Z.land_ones by lia.
  rewrite !Z.shiftr_div_pow2 by lia.
  change (2 ^ 8) with 256. change (2 ^ 16) with 65536.
  Z.div_mod_to_equations. lia.
Qed.

(** X27. A block-0 command with an address, from the request to the
    completion: received in IDLE or DNLOAD_IDLE with a staging buffer of at
    least 5 bytes, the 5-byte download of ERASE (or SET_ADDRESS_POINTER)
    followed by the four address bytes, the GETSTATUS poll and the
    completion set the base address to [a]; ERASE reports the erase timeout
    and erases at [a] once, SET_ADDRESS_POINTER reports the write timeout
    and calls nothing. *)
Theorem address_command_flow
    (k : dfu_header) (m : machine) (c a : Z) :
  0 <= a < 4294967296 ->
  0 <= FLASH_ERASE_TIMEOUT k < 16777216 ->
  0 <= FLASH_WRITE_TIMEOUT k < 16777216 ->
  bState (dfu m) = STATE_DFU_IDLE \/ bState (dfu m) = STATE_DFU_DNLOAD_IDLE ->
  (5 <= length (buf (dfu m)))%nat ->
  c = ERASE \/ c = SET_ADDRESS_POINTER ->
  exists m',
    run k [request DFU_DNLOAD 0 5; DataOut (c :: le_bytes32 a);
           request DFU_GETSTATUS 0 6; DataIn] m = Ret tt m' /\
    base_addr (dfu m') = a /\
    trace m' = trace m ++ (if c =? ERASE then [dfu_mem_erase a] else []) /\
    poll_timeout (dfu m') =
      (if c =? ERASE then FLASH_ERASE_TIMEOUT k else FLASH_WRITE_TIMEOUT k) /\
    bState (dfu m') = STATE_DFU_DNLOAD_SYNC /\
    data_len (dfu m') = 0.
Proof.
  intros Ha Hte Htw Hst Hbuf Hc.
  unfold run, step. dispatch_known.
  unfold dfu_dnload. cbn [wLength wValue]. exec.
  replace ((bState (dfu m) =? STATE_DFU_IDLE)
           || (bState (dfu m) =? STATE_DFU_DNLOAD_IDLE)) with true
    by (destruct Hst as [-> | ->]; reflexivity).
  change (0 <? 5) with true. exec.
  unfold ep0_data_out. exec.
  replace (Nat.min (Z.to_nat 5) (length (buf (dfu m)))) with 5%nat by lia.
  change (firstn 5 (c :: le_bytes32 a)) with (c :: le_bytes32 a).
  change (length (c :: le_bytes32 a)) with 5%nat.
  change ((c :: le_bytes32 a) ++ skipn 5 (buf (dfu m)))
    with (c :: le_bytes32 a ++ skipn 5 (buf (dfu m))).
  unfold dfu_getstatus, SET_POLLING_TIMEOUT. exec.
  rewrite !Z.eqb_refl. change (0 =? 5) with false. cbn [negb nth]. exec.
  unfold dfu_ctlx_in, dfu_getstatus_complete.
  destruct Hc as [-> | ->].
  - rewrite Z.eqb_refl. exec.
    cbn [nth]. rewrite !Z.eqb_refl. change (1 =? 5) with false.
    change (SET_ADDRESS_POINTER =? ERASE) with false. exec.
    rewrite (load32_le_bytes32 ERASE a _ Ha).
    eexists. split; [reflexivity |]. exec.
    repeat split; try reflexivity.
    unfold poll_timeout. exec. apply poll_timeout_bytes. exact Hte.
  - change (ERASE =? SET_ADDRESS_POINTER) with false. exec.
    cbn [nth]. rewrite !Z.eqb_refl. change (1 =? 5) with false. exec.
    rewrite (load32_le_bytes32 SET_ADDRESS_POINTER a _ Ha).
    eexists. split; [reflexivity |]. exec.
    change (SET_ADDRESS_POINTER =? ERASE) with false.
    repeat split; try reflexivity.
    + symmetry. apply app_nil_r.
    + unfold poll_timeout. exec. apply poll_timeout_bytes. exact Htw.
Qed.

Lemma address_command_flow_witness :
  exists m',
    run sample_header
      [request DFU_DNLOAD 0 5; DataOut (ERASE :: le_bytes32 0x08004000);
       request DFU_GETSTATUS 0 6; DataIn] m_idle = Ret tt m' /\
    base_addr (dfu m') = 0x08004000 /\
    trace m' = trace m_idle ++
      (if ERASE =? ERASE then [dfu_mem_erase 0x08004000] else []) /\
    poll_timeout (dfu m') =
      (if ERASE =? ERASE then FLASH_ERASE_TIMEOUT sample_header
       else FLASH_WRITE_TIMEOUT sample_header) /\
    bState (dfu m') = STATE_DFU_DNLOAD_SYNC /\
    data_len (dfu m') = 0.
Proof.
  apply (address_command_flow sample_header m_idle ERASE 0x08004000).
  - lia.
  - cbn. lia.
  - cbn. lia.
  - left. reflexivity.
  - vm_compute. repeat constructor.
  - left. reflexivity.
Defined.

(** ** Repeated activation *)

Lemma string_to_unicode_idempotent (str : option (list Z)) (pbuf : list Z) :
  string_fits str pbuf ->
  string_to_unicode str (string_to_unicode str pbuf)
  = string_to_unicode str pbuf.
Proof.
  destruct str as [s |]; [| reflexivity].
  intros [Hmax Hfit].
  rewrite (string_to_unicode_layout s pbuf Hmax Hfit).
  set (cs := c_string s) in *.
  set (head := (2 * Z.of_nat (length cs) + 2) mod 256 + 768).
  assert (Hlen : length (head :: cs ++ skipn (S (length cs)) pbuf)
                 = length pbuf).
  { cbn [length]. rewrite length_app, length_skipn. lia. }
  rewrite (string_to_unicode_layout s _ Hmax) by (fold cs; lia).
  fold cs. fold head. f_equal. f_equal.
  rewrite skipn_cons, skipn_app, Nat.sub_diag.
  rewrite skipn_all. reflexivity.
Qed.

(** X28. Activating the interface again gives the same result as the first
    activation: when the three adapter strings fit their descriptors, a
    second [dfu_init] leaves the context and the three interface strings
    exactly as the first one left them, whatever happened before; it only
    repeats the adapter initialisation and the tick configuration. *)
Theorem dfu_init_again (k : dfu_header) (m : machine) (c1 c2 : Z) :
  string_fits (inter_flash_pstr_desc k) (str_alt_itf0 m) ->
  string_fits (nor_flash_pstr_desc k) (str_alt_itf1 m) ->
  string_fits (nand_flash_pstr_desc k) (str_alt_itf2 m) ->
  exists m1 m2,
    dfu_init k c1 m = Ret USBD_OK m1 /\
    dfu_init k c2 m1 = Ret USBD_OK m2 /\
    dfu m2 = dfu m1 /\
    str_alt_itf0 m2 = str_alt_itf0 m1 /\
    str_alt_itf1 m2 = str_alt_itf1 m1 /\
    str_alt_itf2 m2 = str_alt_itf2 m1 /\
    trace m2 = trace m1 ++ [dfu_mem_init; systick_config].
Proof.
  intros H0 H1 H2.
  eexists. eexists.
  split; [unfold dfu_init; exec; reflexivity |].
  split; [unfold dfu_init; exec; reflexivity |].
  unfold with_strings.
  cbn [dfu str_alt_itf0 str_alt_itf1 str_alt_itf2 trace with_dfu log].
  rewrite !string_to_unicode_idempotent by assumption.
  repeat split; try reflexivity.
  rewrite <- !app_assoc. reflexivity.
Qed.

Lemma dfu_init_again_witness :
  exists m1 m2,
    dfu_init sample_header 0 m_error = Ret USBD_OK m1 /\
    dfu_init sample_header 0 m1 = Ret USBD_OK m2 /\
    dfu m2 = dfu m1 /\
    str_alt_itf0 m2 = str_alt_itf0 m1 /\
    str_alt_itf1 m2 = str_alt_itf1 m1 /\
    str_alt_itf2 m2 = str_alt_itf2 m1 /\
    trace m2 = trace m1 ++ [dfu_mem_init; systick_config].
Proof.
  apply (dfu_init_again sample_header m_error 0 0).
  - vm_compute. split; repeat constructor.
  - vm_compute. split; repeat constructor.
  - exact I.
Defined.
